(** * guppy: release acquisition and application pipeline

    A shallow embedding of the Go packages [version], [checksum],
    [repository] and [applier] of guppy, and the properties of its
    specification proved (or refuted) against that embedding.

    Go strings are byte sequences: they are modelled by [string], whose
    characters are 8-bit [ascii] values.  Go's [int] is the 64-bit signed
    integer; values are kept in [Z] and the range is written out where the
    code depends on it ([strconv.Atoi]).  Library functions the code calls
    ([strings], [strconv], [path/filepath], the digests, the [os] calls)
    are modelled first, then the packages of guppy, then the properties. *)

From Stdlib Require Import ZArith List String Ascii Bool Lia.
From stdpp Require Import gmap strings.

Local Open Scope string_scope.
Local Open Scope Z_scope.

(** ** Go's [strings] package, as far as guppy uses it *)

Module Strings.

(** The rest of [s] after [prefix], when [s] starts with it. *)
Fixpoint strip_prefix (prefix s : string) : option string :=
  match prefix, s with
  | EmptyString, _ => Some s
  | String a p, String b r => if Ascii.eqb a b then strip_prefix p r else None
  | String _ _, EmptyString => None
  end.

(** [strings.HasPrefix(s, prefix)] *)
Definition HasPrefix (s prefix : string) : bool :=
  match strip_prefix prefix s with Some _ => true | None => false end.

(** [strings.HasSuffix(s, suffix)] *)
Definition HasSuffix (s suffix : string) : bool :=
  HasPrefix (String.rev s) (String.rev suffix).

(** [strings.TrimPrefix(s, prefix)] *)
Definition TrimPrefix (s prefix : string) : string :=
  match strip_prefix prefix s with Some r => r | None => s end.

(** [strings.Split(s, sep)] for a one-byte separator, the only form the
    code uses: the pieces between the occurrences of [sep]; a string with
    [n] separators has [n+1] pieces, and the empty string has one. *)
Fixpoint Split (s : string) (sep : ascii) : list string :=
  match s with
  | EmptyString => [EmptyString]
  | String c rest =>
      if Ascii.eqb c sep then EmptyString :: Split rest sep
      else match Split rest sep with
           | [] => [String c EmptyString]
           | p :: ps => String c p :: ps
           end
  end.

(** [strings.Join(elems, sep)] *)
Fixpoint Join (elems : list string) (sep : string) : string :=
  match elems with
  | [] => EmptyString
  | [e] => e
  | e :: rest => e ++ sep ++ Join rest sep
  end.

(** [strings.Contains(s, substr)] for a one-byte [substr]. *)
Fixpoint ContainsByte (s : string) (c : ascii) : bool :=
  match s with
  | EmptyString => false
  | String d rest => Ascii.eqb d c || ContainsByte rest c
  end.

Definition lower_byte (c : ascii) : ascii :=
  let n := N_of_ascii c in
  if (65 <=? n)%N && (n <=? 90)%N then ascii_of_N (n + 32) else c.

(** [strings.ToLower] on the ASCII letters.  Bytes from [0x80] up are
    left alone; Go maps non-ASCII runes through Unicode, but no such rune
    lowercases to a hexadecimal digit, and the code only compares the
    result with a hexadecimal digest. *)
Fixpoint ToLower (s : string) : string :=
  match s with
  | EmptyString => EmptyString
  | String c rest => String (lower_byte c) (ToLower rest)
  end.

(** The UTF-8 encodings of the code points for which [unicode.IsSpace]
    holds: tab, LF, VT, FF, CR, space, U+0085, U+00A0, U+1680,
    U+2000..U+200A, U+2028, U+2029, U+202F, U+205F, U+3000. *)
Definition bytes (l : list N) : string :=
  fold_right (fun n s => String (ascii_of_N n) s) EmptyString l.

Definition spaces : list string :=
  map bytes
    [ [9]; [10]; [11]; [12]; [13]; [32]; [194; 133]; [194; 160];
      [225; 154; 128];
      [226; 128; 128]; [226; 128; 129]; [226; 128; 130]; [226; 128; 131];
      [226; 128; 132]; [226; 128; 133]; [226; 128; 134]; [226; 128; 135];
      [226; 128; 136]; [226; 128; 137]; [226; 128; 138];
      [226; 128; 168]; [226; 128; 169]; [226; 128; 175];
      [226; 129; 159]; [227; 128; 128] ]%N.

(** Drop one leading white-space rune, if there is one. *)
Fixpoint drop_space (sps : list string) (s : string) : option string :=
  match sps with
  | [] => None
  | sp :: rest =>
      match strip_prefix sp s with
      | Some r => Some r
      | None => drop_space rest s
      end
  end.

Fixpoint TrimLeft (sps : list string) (fuel : nat) (s : string) : string :=
  match fuel with
  | O => s
  | S f => match drop_space sps s with
           | Some s' => TrimLeft sps f s'
           | None => s
           end
  end.

(** [strings.TrimSpace(s)]: white space removed at both ends.  The right
    end is trimmed on the reversed string with the reversed encodings. *)
Definition TrimSpace (s : string) : string :=
  let l := TrimLeft spaces (String.length s) s in
  String.rev (TrimLeft (map String.rev spaces) (String.length l) (String.rev l)).

End Strings.

(** ** Go's [strconv.Atoi] and the [%d] verb of [fmt.Sprintf] *)

Module Strconv.

Definition maxInt : Z := 2 ^ 63 - 1.
Definition minInt : Z := - 2 ^ 63.

Definition digit_val (c : ascii) : option Z :=
  let n := Z.of_N (N_of_ascii c) in
  if (48 <=? n) && (n <=? 57) then Some (n - 48) else None.

Fixpoint parse_digits (s : string) (acc : Z) : option Z :=
  match s with
  | EmptyString => Some acc
  | String c rest =>
      match digit_val c with
      | Some d => parse_digits rest (acc * 10 + d)
      | None => None
      end
  end.

(** [strconv.Atoi(s)]: an optional sign, then at least one decimal digit
    and nothing else; [None] stands for a syntax or range error. *)
Definition Atoi (s : string) : option Z :=
  let '(neg, body) :=
    match s with
    | String c rest =>
        if Ascii.eqb c "-" then (true, rest)
        else if Ascii.eqb c "+" then (false, rest)
        else (false, s)
    | EmptyString => (false, s)
    end in
  match body with
  | EmptyString => None
  | _ =>
      match parse_digits body 0 with
      | Some n =>
          let v := if neg then - n else n in
          if (minInt <=? v) && (v <=? maxInt) then Some v else None
      | None => None
      end
  end.

Definition digit_char (d : Z) : ascii := ascii_of_N (Z.to_N (48 + d)).

Fixpoint digits (fuel : nat) (n : Z) (acc : string) : string :=
  match fuel with
  | O => acc
  | S f =>
      let acc' := String (digit_char (n mod 10)) acc in
      if n <? 10 then acc' else digits f (n / 10) acc'
  end.

(** [fmt.Sprintf("%d", n)]: decimal digits without leading zeros, with a
    minus sign for a negative number. *)
Definition FormatInt (n : Z) : string :=
  if n <? 0
  then String "-"%char (digits (S (Z.to_nat (Z.log2 (- n)))) (- n) EmptyString)
  else digits (S (Z.to_nat (Z.log2 n))) n EmptyString.

End Strconv.

(** ** Package [version] *)

Module Version.
Import Strings Strconv.

Record Version := mkVersion {
  Major : Z;
  Minor : Z;
  Patch : Z;
  PreRelease : string;
  Build : string
}.

Inductive ParseError :=
| InvalidVersionFormat (v : string)
| InvalidMajor (s : string)
| InvalidMinor (s : string)
| InvalidPatch (s : string).

(** [Parse] *)
Definition Parse (v : string) : Version + ParseError :=
  let v := TrimPrefix v "v" in
  let parts := Split v "+" in
  let v := hd EmptyString parts in
  let build := match parts with _ :: b :: _ => b | _ => EmptyString end in
  let parts := Split v "-" in
  let v := hd EmptyString parts in
  let preRelease :=
    match parts with
    | _ :: (_ :: _) as tl => Join tl "-"
    | _ => EmptyString
    end in
  match Split v "." with
  | [p0; p1; p2] =>
      match Atoi p0 with
      | None => inr (InvalidMajor p0)
      | Some major =>
          match Atoi p1 with
          | None => inr (InvalidMinor p1)
          | Some minor =>
              match Atoi p2 with
              | None => inr (InvalidPatch p2)
              | Some patch =>
                  inl (mkVersion major minor patch preRelease build)
              end
          end
      end
  | _ => inr (InvalidVersionFormat v)
  end.

(** Method [String] of [Version] *)
Definition String_ (v : Version) : string :=
  let s := FormatInt (Major v) ++ "." ++ FormatInt (Minor v) ++ "."
           ++ FormatInt (Patch v) in
  let s := if String.eqb (PreRelease v) "" then s
           else s ++ "-" ++ PreRelease v in
  if String.eqb (Build v) "" then s else s ++ "+" ++ Build v.

(** Go's [>] on strings: byte-wise lexicographic order. *)
Definition string_gt (a b : string) : bool :=
  match String.compare a b with Gt => true | _ => false end.

(** Method [Compare] of [Version] *)
Definition Compare (v other : Version) : Z :=
  if negb (Major v =? Major other) then
    if Major v >? Major other then 1 else -1
  else if negb (Minor v =? Minor other) then
    if Minor v >? Minor other then 1 else -1
  else if negb (Patch v =? Patch other) then
    if Patch v >? Patch other then 1 else -1
  else if String.eqb (PreRelease v) "" && negb (String.eqb (PreRelease other) "") then 1
  else if negb (String.eqb (PreRelease v) "") && String.eqb (PreRelease other) "" then -1
  else if negb (String.eqb (PreRelease v) (PreRelease other)) then
    if string_gt (PreRelease v) (PreRelease other) then 1 else -1
  else 0.

Inductive CompareError :=
| ErrorParsingVersion (v : string) (e : ParseError).

(** [CompareStrings] *)
Definition CompareStrings (v1 v2 : string) : Z + CompareError :=
  match Parse v1 with
  | inr e => inr (ErrorParsingVersion v1 e)
  | inl ver1 =>
      match Parse v2 with
      | inr e => inr (ErrorParsingVersion v2 e)
      | inl ver2 => inl (Compare ver1 ver2)
      end
  end.

(** [IsNewer] on version strings *)
Definition IsNewer (v1 v2 : string) : bool + CompareError :=
  match CompareStrings v1 v2 with
  | inr e => inr e
  | inl cmp => inl (cmp >? 0)
  end.

End Version.

(** ** Go's [crypto/sha256], [crypto/sha1], [crypto/md5] and [encoding/hex]

    The three digests are written out (FIPS 180-4 and RFC 1321) so that the
    verification functions compute on concrete files.  A byte slice is a
    list of numbers below 256. *)

Module Crypto.

Definition byte_vals (s : string) : list Z :=
  map (fun c => Z.of_N (N_of_ascii c)) (list_ascii_of_string s).

Definition w32 (x : Z) : Z := x mod 2 ^ 32.
Definition rotl (n x : Z) : Z :=
  Z.lor (w32 (Z.shiftl x n)) (Z.shiftr x (32 - n)).
Definition rotr (n x : Z) : Z := rotl (32 - n) x.
Definition not32 (x : Z) : Z := 2 ^ 32 - 1 - x.
Definition xor3 (x y z : Z) : Z := Z.lxor (Z.lxor x y) z.

Definition be_bytes (n : nat) (x : Z) : list Z :=
  map (fun i => Z.shiftr x (8 * Z.of_nat i) mod 256) (rev (seq 0 n)).
Definition le_bytes (n : nat) (x : Z) : list Z := rev (be_bytes n x).
Definition be_word (bs : list Z) : Z := fold_left (fun acc b => acc * 256 + b) bs 0.
Definition le_word (bs : list Z) : Z := be_word (rev bs).

(** Message padding: a 1 bit, zeros, and the bit length in 8 bytes. *)
Definition pad (big_endian : bool) (m : list Z) : list Z :=
  let len := Z.of_nat (length m) in
  m ++ [128] ++ repeat 0 (Z.to_nat ((55 - len) mod 64))
    ++ (if big_endian then be_bytes 8 (8 * len) else le_bytes 8 (8 * len)).

Fixpoint chunks (fuel n : nat) (l : list Z) : list (list Z) :=
  match fuel with
  | O => []
  | S f =>
      match l with
      | [] => []
      | _ => firstn n l :: chunks f n (skipn n l)
      end
  end.

Definition blocks (big_endian : bool) (m : list Z) : list (list Z) :=
  let p := pad big_endian m in
  map (fun blk => map (if big_endian then be_word else le_word) (chunks 16 4 blk))
      (chunks (length p) 64 p).

Definition Ch (x y z : Z) : Z := Z.lxor (Z.land x y) (Z.land (not32 x) z).
Definition Maj (x y z : Z) : Z :=
  xor3 (Z.land x y) (Z.land x z) (Z.land y z).

(** *** SHA-256 *)

Definition K256 : list Z :=
  [ 1116352408; 1899447441; 3049323471; 3921009573; 961987163; 1508970993;
    2453635748; 2870763221; 3624381080; 310598401; 607225278; 1426881987;
    1925078388; 2162078206; 2614888103; 3248222580; 3835390401; 4022224774;
    264347078; 604807628; 770255983; 1249150122; 1555081692; 1996064986;
    2554220882; 2821834349; 2952996808; 3210313671; 3336571891; 3584528711;
    113926993; 338241895; 666307205; 773529912; 1294757372; 1396182291;
    1695183700; 1986661051; 2177026350; 2456956037; 2730485921; 2820302411;
    3259730800; 3345764771; 3516065817; 3600352804; 4094571909; 275423344;
    430227734; 506948616; 659060556; 883997877; 958139571; 1322822218;
    1537002063; 1747873779; 1955562222; 2024104815; 2227730452; 2361852424;
    2428436474; 2756734187; 3204031479; 3329325298 ].

Definition H256 : list Z :=
  [ 1779033703; 3144134277; 1013904242; 2773480762;
    1359893119; 2600822924; 528734635; 1541459225 ].

(** The message schedule, most recent word first. *)
Fixpoint extend256 (n : nat) (rws : list Z) : list Z :=
  match n with
  | O => rws
  | S n' =>
      let s1 x := xor3 (rotr 17 x) (rotr 19 x) (Z.shiftr x 10) in
      let s0 x := xor3 (rotr 7 x) (rotr 18 x) (Z.shiftr x 3) in
      let w := w32 (s1 (nth 1 rws 0) + nth 6 rws 0
                    + s0 (nth 14 rws 0) + nth 15 rws 0) in
      extend256 n' (w :: rws)
  end.

Definition round256 (st : list Z) (kw : Z * Z) : list Z :=
  match st with
  | [a; b; c; d; e; f; g; h] =>
      let t1 := w32 (h + xor3 (rotr 6 e) (rotr 11 e) (rotr 25 e)
                     + Ch e f g + fst kw + snd kw) in
      let t2 := w32 (xor3 (rotr 2 a) (rotr 13 a) (rotr 22 a) + Maj a b c) in
      [w32 (t1 + t2); a; b; c; w32 (d + t1); e; f; g]
  | _ => st
  end.

Definition add_state (s t : list Z) : list Z :=
  map (fun p => w32 (fst p + snd p)) (combine s t).

Definition compress256 (st blk : list Z) : list Z :=
  add_state st
    (fold_left round256 (combine K256 (rev (extend256 48 (rev blk)))) st).

(** [sha256.New()], the content written to it, then [Sum(nil)]. *)
Definition sha256_Sum (content : string) : list Z :=
  flat_map (be_bytes 4)
    (fold_left compress256 (blocks true (byte_vals content)) H256).

(** *** SHA-1 *)

Definition H1 : list Z :=
  [ 1732584193; 4023233417; 2562383102; 271733878; 3285377520 ].

Fixpoint extend1 (n : nat) (rws : list Z) : list Z :=
  match n with
  | O => rws
  | S n' =>
      let w := rotl 1 (Z.lxor (xor3 (nth 2 rws 0) (nth 7 rws 0) (nth 13 rws 0))
                              (nth 15 rws 0)) in
      extend1 n' (w :: rws)
  end.

Definition round1 (st : list Z) (tw : nat * Z) : list Z :=
  match st with
  | [a; b; c; d; e] =>
      let t := fst tw in
      let '(f, k) :=
        if (t <? 20)%nat then (Ch b c d, 1518500249)
        else if (t <? 40)%nat then (xor3 b c d, 1859775393)
        else if (t <? 60)%nat then (Maj b c d, 2400959708)
        else (xor3 b c d, 3395469782) in
      [w32 (rotl 5 a + f + e + k + snd tw); a; rotl 30 b; c; d]
  | _ => st
  end.

Definition compress1 (st blk : list Z) : list Z :=
  add_state st
    (fold_left round1 (combine (seq 0 80) (rev (extend1 64 (rev blk)))) st).

(** [sha1.New()], the content written to it, then [Sum(nil)]. *)
Definition sha1_Sum (content : string) : list Z :=
  flat_map (be_bytes 4)
    (fold_left compress1 (blocks true (byte_vals content)) H1).

(** *** MD5 *)

Definition T5 : list Z :=
  [ 3614090360; 3905402710; 606105819; 3250441966; 4118548399; 1200080426;
    2821735955; 4249261313; 1770035416; 2336552879; 4294925233; 2304563134;
    1804603682; 4254626195; 2792965006; 1236535329; 4129170786; 3225465664;
    643717713; 3921069994; 3593408605; 38016083; 3634488961; 3889429448;
    568446438; 3275163606; 4107603335; 1163531501; 2850285829; 4243563512;
    1735328473; 2368359562; 4294588738; 2272392833; 1839030562; 4259657740;
    2763975236; 1272893353; 4139469664; 3200236656; 681279174; 3936430074;
    3572445317; 76029189; 3654602809; 3873151461; 530742520; 3299628645;
    4096336452; 1126891415; 2878612391; 4237533241; 1700485571; 2399980690;
    4293915773; 2240044497; 1873313359; 4264355552; 2734768916; 1309151649;
    4149444226; 3174756917; 718787259; 3951481745 ].

Definition S5 : list Z :=
  [ 7; 12; 17; 22; 7; 12; 17; 22; 7; 12; 17; 22; 7; 12; 17; 22;
    5; 9; 14; 20; 5; 9; 14; 20; 5; 9; 14; 20; 5; 9; 14; 20;
    4; 11; 16; 23; 4; 11; 16; 23; 4; 11; 16; 23; 4; 11; 16; 23;
    6; 10; 15; 21; 6; 10; 15; 21; 6; 10; 15; 21; 6; 10; 15; 21 ].

Definition H5 : list Z := [ 1732584193; 4023233417; 2562383102; 271733878 ].

Definition round5 (blk : list Z) (st : list Z) (i : nat) : list Z :=
  match st with
  | [a; b; c; d] =>
      let '(f, g) :=
        if (i <? 16)%nat then (Z.lor (Z.land b c) (Z.land (not32 b) d), i)
        else if (i <? 32)%nat
             then (Z.lor (Z.land d b) (Z.land (not32 d) c), (5 * i + 1) mod 16)%nat
        else if (i <? 48)%nat then (xor3 b c d, (3 * i + 5) mod 16)%nat
        else (Z.lxor c (Z.lor b (not32 d)), (7 * i) mod 16)%nat in
      let x := w32 (f + a + nth i T5 0 + nth g blk 0) in
      [d; w32 (b + rotl (nth i S5 0) x); b; c]
  | _ => st
  end.

Definition compress5 (st blk : list Z) : list Z :=
  add_state st (fold_left (round5 blk) (seq 0 64) st).

(** [md5.New()], the content written to it, then [Sum(nil)]. *)
Definition md5_Sum (content : string) : list Z :=
  flat_map (le_bytes 4)
    (fold_left compress5 (blocks false (byte_vals content)) H5).

(** *** [hex.EncodeToString]: two lower-case digits for each byte *)

Definition hex_digit (d : Z) : ascii :=
  ascii_of_N (Z.to_N (if d <? 10 then 48 + d else 87 + d)).

Fixpoint EncodeToString (bs : list Z) : string :=
  match bs with
  | [] => EmptyString
  | b :: rest =>
      String (hex_digit (b / 16)) (String (hex_digit (b mod 16)) (EncodeToString rest))
  end.

End Crypto.

(** ** Go's [path/filepath] on a system whose separator is the slash *)

Module Filepath.
Import Strings.

Definition is_dot (c : string) : bool := String.eqb c "" || String.eqb c ".".

(** One path element against the elements kept so far (last one first):
    empty and dot elements vanish, a dot-dot removes the last real element,
    and stays only in front of a path that is not rooted. *)
Definition clean_step (rooted : bool) (kept : list string) (c : string)
  : list string :=
  if is_dot c then kept
  else if String.eqb c ".." then
    match kept with
    | top :: below =>
        if String.eqb top ".." then c :: kept else below
    | [] => if rooted then [] else [c]
    end
  else c :: kept.

(** [filepath.Clean(path)] *)
Definition Clean (path : string) : string :=
  match path with
  | EmptyString => "."
  | String c _ =>
      let rooted := Ascii.eqb c "/" in
      let kept := rev (fold_left (clean_step rooted) (Split path "/") []) in
      if rooted then "/" ++ Join kept "/"
      else match kept with
           | [] => "."
           | _ => Join kept "/"
           end
  end.

(** [filepath.Join(dir, name)], the two-argument form the code uses: empty
    arguments are ignored and the rest is joined with a slash and cleaned. *)
Definition Join (dir name : string) : string :=
  if negb (String.eqb dir "") then Clean (dir ++ "/" ++ name)
  else if negb (String.eqb name "") then Clean name
  else "".

(** The text up to and including the last slash. *)
Fixpoint upto_last_slash (path : string) : string :=
  match path with
  | EmptyString => EmptyString
  | String c rest =>
      if ContainsByte path "/" then String c (upto_last_slash rest)
      else EmptyString
  end.

(** [filepath.Dir(path)] *)
Definition Dir (path : string) : string := Clean (upto_last_slash path).

(** [filepath.Base(path)] *)
Definition Base (path : string) : string :=
  match path with
  | EmptyString => "."
  | _ =>
      match List.filter (fun c => negb (String.eqb c "")) (rev (Split path "/")) with
      | last :: _ => last
      | [] => "/"
      end
  end.

(** The directories on the way down to a cleaned path, the path itself
    last; the root directory is not listed. *)
Fixpoint dirs_from (acc rest : string) : list string :=
  match rest with
  | EmptyString =>
      if String.eqb acc "" || String.eqb acc "/" then [] else [acc]
  | String c r =>
      if Ascii.eqb c "/"
      then (if String.eqb acc "" then [] else [acc]) ++ dirs_from (acc ++ "/") r
      else dirs_from (acc ++ String c "") r
  end.

Definition dirs_chain (path : string) : list string := dirs_from "" path.

End Filepath.

(** ** The file system and the operating-system calls

    The tree is a finite map from path names to nodes.  A call fails when
    the tree makes it fail (a missing file, a directory in the place of a
    file) or when the environment denies that operation on that path
    (permissions, a locked file, a full disk); a failed call leaves the tree
    as it was.  Symbolic links are nodes of their own and are not followed:
    a call that would follow one (open, stat, create, write, chmod, mkdir)
    fails on it; removing or renaming the link itself works. *)

Module OS.
Import Strings.

Inductive node :=
| File (mode : Z) (content : string)
| Dir (mode : Z)
| Symlink (target : string).

Inductive op :=
| OpOpen | OpStat | OpRead | OpCreate | OpWrite | OpClose
| OpRemove | OpRename | OpChmod | OpMkdir.

Record world := mkWorld {
  fs : gmap string node;
  denied : op -> string -> bool
}.

Definition with_fs (w : world) (m : gmap string node) : world :=
  mkWorld m (denied w).

(** Bits of [os.FileMode] *)
Definition ModeDir : Z := 2 ^ 31.
Definition IsDir (mode : Z) : bool := Z.testbit mode 31.
Definition Perm (mode : Z) : Z := Z.land mode 511.

(** [os.Open(name)] *)
Definition Open (name : string) (w : world) : bool :=
  negb (denied w OpOpen name) &&
  match fs w !! name with
  | Some (File _ _) | Some (Dir _) => true
  | _ => false
  end.

(** [os.Stat(name)], and [Stat] on an open file: the mode of the node. *)
Definition Stat (name : string) (w : world) : option Z :=
  if denied w OpStat name then None
  else match fs w !! name with
       | Some (File m _) => Some m
       | Some (Dir m) => Some (Z.lor ModeDir m)
       | _ => None
       end.

(** Reading an open file to its end. *)
Definition ReadAll (name : string) (w : world) : option string :=
  if denied w OpRead name then None
  else match fs w !! name with
       | Some (File _ c) => Some c
       | _ => None
       end.

(** [os.OpenFile(name, O_WRONLY|O_CREATE|O_TRUNC, perm)]; [os.Create] is
    the same call with [perm = 0666].  An existing file keeps its mode, a
    new one gets the permission bits of [perm] (the umask is taken to be
    zero). *)
Definition OpenFile (name : string) (perm : Z) (w : world) : option world :=
  if denied w OpCreate name then None
  else match fs w !! name with
       | None => Some (with_fs w (<[name := File (Perm perm) ""]> (fs w)))
       | Some (File m _) => Some (with_fs w (<[name := File m ""]> (fs w)))
       | Some _ => None
       end.

(** Writing [content] to the file just opened at [name]. *)
Definition Write (name content : string) (w : world) : option world :=
  if denied w OpWrite name then None
  else match fs w !! name with
       | Some (File m _) => Some (with_fs w (<[name := File m content]> (fs w)))
       | _ => None
       end.

(** [Close] on a file that was written. *)
Definition Close (name : string) (w : world) : bool :=
  negb (denied w OpClose name).

Definition has_child (name : string) (m : gmap string node) : bool :=
  existsb (fun kv => HasPrefix (fst kv) (name ++ "/")) (map_to_list m).

(** [os.Remove(name)]: a file, a link or an empty directory. *)
Definition Remove (name : string) (w : world) : option world :=
  if denied w OpRemove name then None
  else match fs w !! name with
       | None => None
       | Some (Dir _) =>
           if has_child name (fs w) then None
           else Some (with_fs w (delete name (fs w)))
       | Some _ => Some (with_fs w (delete name (fs w)))
       end.

(** [_ = os.Remove(name)]: the error is dropped. *)
Definition Remove_ (name : string) (w : world) : world :=
  match Remove name w with
  | Some w' => w'
  | None => w
  end.

(** [os.Rename(oldpath, newpath)] for a file or a link; it replaces what
    is at [newpath] unless that is a directory. *)
Definition Rename (oldpath newpath : string) (w : world) : option world :=
  if denied w OpRename oldpath then None
  else if String.eqb newpath "" then None
  else match fs w !! oldpath, fs w !! newpath with
       | Some (Dir _), _ => None
       | Some _, Some (Dir _) => None
       | Some n, _ =>
           if String.eqb oldpath newpath then Some w
           else Some (with_fs w (<[newpath := n]> (delete oldpath (fs w))))
       | None, _ => None
       end.

(** [os.Chmod(name, mode)] *)
Definition Chmod (name : string) (mode : Z) (w : world) : option world :=
  if denied w OpChmod name then None
  else match fs w !! name with
       | Some (File _ c) => Some (with_fs w (<[name := File (Perm mode) c]> (fs w)))
       | Some (Dir _) => Some (with_fs w (<[name := Dir (Perm mode)]> (fs w)))
       | _ => None
       end.

Definition dir_or_free (m : gmap string node) (d : string) : bool :=
  match m !! d with
  | None | Some (Dir _) => true
  | Some _ => false
  end.

Definition mkdir_if_free (perm : Z) (m : gmap string node) (d : string)
  : gmap string node :=
  match m !! d with
  | None => <[d := Dir (Perm perm)]> m
  | Some _ => m
  end.

(** [os.MkdirAll(path, perm)]: every missing directory down to [path] is
    made; anything but a directory on the way is an error. *)
Definition MkdirAll (path : string) (perm : Z) (w : world) : option world :=
  if denied w OpMkdir path then None
  else if forallb (dir_or_free (fs w)) (Filepath.dirs_chain path)
  then Some (with_fs w (fold_left (mkdir_if_free perm) (Filepath.dirs_chain path) (fs w)))
  else None.

End OS.

(** ** Package [applier]: the atomic binary replace *)

Module BinaryApplier.
Import Strings.

Inductive ApplyError :=
| ErrOpeningSourceFile
| ErrGettingSourceFileInfo
| ErrCreatingTemporaryTargetFile
| ErrCopyingFile
| ErrRemovingOldTarget
| ErrRenamingTemporaryFile
| ErrSettingExecutablePermissions.

(** [io.Copy(targetFile, sourceFile)]: the source is read to its end and
    written to the file opened at [dst]. *)
Definition Copy (dst src : string) (w : OS.world) : option OS.world :=
  match OS.ReadAll src w with
  | None => None
  | Some content => OS.Write dst content w
  end.

(** [BinaryApplier.Apply(source, target)] *)
Definition Apply (source target : string) (w : OS.world)
  : option ApplyError * OS.world :=
  if negb (OS.Open source w) then (Some ErrOpeningSourceFile, w)
  else
    match OS.Stat source w with
    | None => (Some ErrGettingSourceFileInfo, w)
    | Some sourceMode =>
        let tempTarget := target ++ ".tmp" in
        match OS.OpenFile tempTarget sourceMode w with
        | None => (Some ErrCreatingTemporaryTargetFile, w)
        | Some w1 =>
            match Copy tempTarget source w1 with
            | None => (Some ErrCopyingFile, OS.Remove_ tempTarget w1)
            | Some w2 =>
                let removed :=
                  match OS.Stat target w2 with
                  | Some _ => OS.Remove target w2
                  | None => Some w2
                  end in
                match removed with
                | None => (Some ErrRemovingOldTarget, OS.Remove_ tempTarget w2)
                | Some w3 =>
                    match OS.Rename tempTarget target w3 with
                    | None => (Some ErrRenamingTemporaryFile, w3)
                    | Some w4 =>
                        match OS.Chmod target 493 w4 with
                        | None => (Some ErrSettingExecutablePermissions, w4)
                        | Some w5 => (None, w5)
                        end
                    end
                end
            end
        end
    end.

End BinaryApplier.

(** ** Package [applier]: archive extraction *)

Module ArchiveApplier.
Import Strings.

Record ArchiveApplier := mkArchiveApplier { ExtractPath : string }.

(** [NewArchiveApplier] *)
Definition NewArchiveApplier : ArchiveApplier := mkArchiveApplier "".

(** A file of a zip archive as [archive/zip] presents it: its name, the
    value of [Mode()], the bytes its reader delivers, whether [Open()]
    succeeds and whether the reader ends without an error. *)
Record zipFile := mkZipFile {
  zName : string;
  zMode : Z;
  zContent : string;
  zOpens : bool;
  zReads : bool
}.

(** An entry of a tar stream as [archive/tar] presents it: the header
    fields the code reads, the bytes the reader delivers for the entry and
    whether it delivers them without an error. *)
Record tarEntry := mkTarEntry {
  tName : string;
  tTypeflag : ascii;
  tMode : Z;
  tContent : string;
  tReads : bool
}.

Definition TypeReg : ascii := "0".
Definition TypeSymlink : ascii := "2".
Definition TypeDir : ascii := "5".

(** What the readers make of the bytes of the source file: a zip archive
    with its files, a gzip stream holding tar entries that ends in
    [io.EOF] ([true]) or in a read error ([false]), or neither. *)
Inductive archive :=
| ZipArchive (files : list zipFile)
| TarGzArchive (entries : list tarEntry) (ends_in_eof : bool)
| NoArchive.

Inductive ApplyError :=
| UnsupportedArchiveFormat (source : string)
| ErrOpeningZipFile
| IllegalFilePath (path : string)
| ErrCreatingDirectory
| ErrCreatingParentDirectory
| ErrOpeningFileInArchive
| ErrCreatingOutputFile
| ErrExtractingFile
| ErrOpeningTarGzFile
| ErrCreatingGzipReader
| ErrReadingTar
| ErrCreatingFile
| ErrClosingFile.

(** [extractZipFile(file, dest)] *)
Definition extractZipFile (file : zipFile) (dest : string) (w : OS.world)
  : option ApplyError * OS.world :=
  if negb (zOpens file) then (Some ErrOpeningFileInArchive, w)
  else
    match OS.OpenFile dest (zMode file) w with
    | None => (Some ErrCreatingOutputFile, w)
    | Some w1 =>
        match OS.Write dest (zContent file) w1 with
        | None => (Some ErrExtractingFile, w1)
        | Some w2 =>
            if zReads file then (None, w2) else (Some ErrExtractingFile, w2)
        end
    end.

(** The loop of [extractZip] over [reader.File]. *)
Fixpoint extractZip_loop (dest : string) (files : list zipFile) (w : OS.world)
  : option ApplyError * OS.world :=
  match files with
  | [] => (None, w)
  | file :: rest =>
      let path := Filepath.Join dest (zName file) in
      if negb (HasPrefix path (Filepath.Clean dest ++ "/"))
      then (Some (IllegalFilePath path), w)
      else if OS.IsDir (zMode file) then
        match OS.MkdirAll path (zMode file) w with
        | None => (Some ErrCreatingDirectory, w)
        | Some w1 => extractZip_loop dest rest w1
        end
      else
        match OS.MkdirAll (Filepath.Dir path) 493 w with
        | None => (Some ErrCreatingParentDirectory, w)
        | Some w1 =>
            match extractZipFile file path w1 with
            | (Some e, w2) => (Some e, w2)
            | (None, w2) => extractZip_loop dest rest w2
            end
        end
  end.

(** [extractZip(source, dest)] *)
Definition extractZip (source dest : string) (a : archive) (w : OS.world)
  : option ApplyError * OS.world :=
  if negb (OS.Open source w) then (Some ErrOpeningZipFile, w)
  else match a with
       | ZipArchive files => extractZip_loop dest files w
       | _ => (Some ErrOpeningZipFile, w)
       end.

(** The loop of [extractTarGz] over [tarReader.Next()]. *)
Fixpoint extractTarGz_loop (dest : string) (entries : list tarEntry)
  (ends_in_eof : bool) (w : OS.world) : option ApplyError * OS.world :=
  match entries with
  | [] => if ends_in_eof then (None, w) else (Some ErrReadingTar, w)
  | header :: rest =>
      let path := Filepath.Join dest (tName header) in
      if negb (HasPrefix path (Filepath.Clean dest ++ "/"))
      then (Some (IllegalFilePath path), w)
      else if Ascii.eqb (tTypeflag header) TypeDir then
        match OS.MkdirAll path (tMode header mod 2 ^ 32) w with
        | None => (Some ErrCreatingDirectory, w)
        | Some w1 => extractTarGz_loop dest rest ends_in_eof w1
        end
      else if Ascii.eqb (tTypeflag header) TypeReg then
        match OS.MkdirAll (Filepath.Dir path) 493 w with
        | None => (Some ErrCreatingParentDirectory, w)
        | Some w1 =>
            match OS.OpenFile path (tMode header mod 2 ^ 32) w1 with
            | None => (Some ErrCreatingFile, w1)
            | Some w2 =>
                match OS.Write path (tContent header) w2 with
                | None => (Some ErrExtractingFile, w2)
                | Some w3 =>
                    if negb (tReads header) then (Some ErrExtractingFile, w3)
                    else if negb (OS.Close path w3) then (Some ErrClosingFile, w3)
                    else extractTarGz_loop dest rest ends_in_eof w3
                end
            end
        end
      else extractTarGz_loop dest rest ends_in_eof w
  end.

(** [extractTarGz(source, dest)] *)
Definition extractTarGz (source dest : string) (a : archive) (w : OS.world)
  : option ApplyError * OS.world :=
  if negb (OS.Open source w) then (Some ErrOpeningTarGzFile, w)
  else match a with
       | TarGzArchive entries ends_in_eof =>
           extractTarGz_loop dest entries ends_in_eof w
       | _ => (Some ErrCreatingGzipReader, w)
       end.

(** The extraction root of [Apply]. *)
Definition extractRoot (a : ArchiveApplier) (target : string) : string :=
  if String.eqb (ExtractPath a) "" then Filepath.Dir target else ExtractPath a.

(** [ArchiveApplier.Apply(source, target)]; [content] is what the source
    file holds. *)
Definition Apply (a : ArchiveApplier) (source target : string)
  (content : archive) (w : OS.world) : option ApplyError * OS.world :=
  let extractPath := extractRoot a target in
  if HasSuffix source ".zip" then extractZip source extractPath content w
  else if HasSuffix source ".tar.gz" || HasSuffix source ".tgz"
  then extractTarGz source extractPath content w
  else (Some (UnsupportedArchiveFormat source), w).

End ArchiveApplier.

(** ** Package [checksum] *)

Module Checksum.
Import Strings.

Inductive Error :=
| ErrOpeningFile
| ErrCalculatingChecksum.

(** [VerifySHA256(filePath, expectedChecksum)] *)
Definition VerifySHA256 (filePath expectedChecksum : string) (w : OS.world)
  : bool * option Error :=
  if negb (OS.Open filePath w) then (false, Some ErrOpeningFile)
  else
    match OS.ReadAll filePath w with
    | None => (false, Some ErrCalculatingChecksum)
    | Some content =>
        let actualChecksum := Crypto.EncodeToString (Crypto.sha256_Sum content) in
        let expectedChecksum := ToLower (TrimSpace expectedChecksum) in
        let actualChecksum := ToLower actualChecksum in
        (String.eqb actualChecksum expectedChecksum, None)
    end.

(** [CalculateSHA256(filePath)] *)
Definition CalculateSHA256 (filePath : string) (w : OS.world)
  : string * option Error :=
  if negb (OS.Open filePath w) then ("", Some ErrOpeningFile)
  else
    match OS.ReadAll filePath w with
    | None => ("", Some ErrCalculatingChecksum)
    | Some content =>
        (Crypto.EncodeToString (Crypto.sha256_Sum content), None)
    end.

End Checksum.

(** ** Package [repository] *)

Module Repository.
Import Strings.

(** [Release]; a [time.Time] is kept as a number, zero for the zero time. *)
Record Release := mkRelease {
  Version : string;
  DownloadURL : string;
  Checksum : string;
  ReleaseDate : Z;
  FileName : string;
  AssetID : Z
}.

End Repository.

(** *** The HTTP manifest repository *)

Module HTTPRepository.
Import Strings Repository.

Record httpRelease := mkHttpRelease {
  hVersion : string;
  hURL : string;
  hMD5 : string;
  hSHA1 : string;
  hSHA256 : string
}.

Inductive Error :=
| ErrFetch
| NoReleasesFound
| NoValidReleaseFound
| ReleaseVersionNotFound (version : string)
| NoDownloadURL
| ErrCreatingDownloadRequest
| ErrDownloadingFile
| DownloadFailedWithStatus (status : Z)
| ErrCreatingDestinationDirectory
| ErrCreatingDestinationFile
| ErrWritingToDestination
| ChecksumVerificationFailed (e : Error)
| ErrOpeningFile
| InvalidChecksumFormat (checksum : string)
| ErrCalculatingHash (algorithm : string)
| UnsupportedHashAlgorithm (algorithm : string)
| HashMismatch (algorithm expected actual : string).

(** [selectChecksum] *)
Definition selectChecksum (httpRel : httpRelease) : string * string :=
  if negb (String.eqb (hSHA256 httpRel) "") then ("sha256:" ++ hSHA256 httpRel, "SHA256")
  else if negb (String.eqb (hSHA1 httpRel) "") then ("sha1:" ++ hSHA1 httpRel, "SHA1")
  else if negb (String.eqb (hMD5 httpRel) "") then ("md5:" ++ hMD5 httpRel, "MD5")
  else ("", "").

(** [convertHTTPRelease] *)
Definition convertHTTPRelease (httpRel : httpRelease) : Release :=
  mkRelease (hVersion httpRel) (hURL httpRel) (fst (selectChecksum httpRel))
            0 (Filepath.Base (hURL httpRel)) 0.

(** The loop of [GetLatestRelease]: [latestRelease] is [None] for the nil
    pointer. *)
Fixpoint latest_loop (releases : list httpRelease) (latestRelease : option httpRelease)
  : option httpRelease :=
  match releases with
  | [] => latestRelease
  | r :: rest =>
      match latestRelease with
      | None => latest_loop rest (Some r)
      | Some latest =>
          match Version.IsNewer (hVersion r) (hVersion latest) with
          | inr _ => latest_loop rest latestRelease
          | inl isNewer =>
              if isNewer then latest_loop rest (Some r)
              else latest_loop rest latestRelease
          end
      end
  end.

(** [GetLatestRelease]; [fetched] is the result of [fetchReleases], the
    decoded manifest or [None] for its error. *)
Definition GetLatestRelease (fetched : option (list httpRelease))
  : Release + Error :=
  match fetched with
  | None => inr ErrFetch
  | Some releases =>
      match releases with
      | [] => inr NoReleasesFound
      | _ =>
          match latest_loop releases None with
          | None => inr NoValidReleaseFound
          | Some latestRelease => inl (convertHTTPRelease latestRelease)
          end
      end
  end.

(** [GetRelease(version)] *)
Definition GetRelease (fetched : option (list httpRelease)) (version : string)
  : Release + Error :=
  match fetched with
  | None => inr ErrFetch
  | Some releases =>
      match List.find (fun r => String.eqb (hVersion r) version) releases with
      | Some r => inl (convertHTTPRelease r)
      | None => inr (ReleaseVersionNotFound version)
      end
  end.

(** The text before and after the first colon; both are empty when there
    is no colon. *)
Fixpoint cut_at_colon (checksum : string) : string * string :=
  match checksum with
  | EmptyString => ("", "")
  | String c rest =>
      if Ascii.eqb c ":" then ("", rest)
      else match cut_at_colon rest with
           | (a, e) =>
               if ContainsByte rest ":" then (String c a, e) else ("", "")
           end
  end.

(** [verifyChecksum(filePath, checksum)] *)
Definition verifyChecksum (filePath checksum : string) (w : OS.world)
  : option Error :=
  if negb (OS.Open filePath w) then Some ErrOpeningFile
  else
    let '(algorithm, expectedHash) := cut_at_colon checksum in
    if String.eqb algorithm "" || String.eqb expectedHash ""
    then Some (InvalidChecksumFormat checksum)
    else
      let hash (sum : string -> list Z) : string + Error :=
        match OS.ReadAll filePath w with
        | None => inr (ErrCalculatingHash algorithm)
        | Some content => inl (Crypto.EncodeToString (sum content))
        end in
      let actual :=
        if String.eqb algorithm "sha256" then hash Crypto.sha256_Sum
        else if String.eqb algorithm "sha1" then hash Crypto.sha1_Sum
        else if String.eqb algorithm "md5" then hash Crypto.md5_Sum
        else inr (UnsupportedHashAlgorithm algorithm) in
      match actual with
      | inr e => Some e
      | inl actualHash =>
          if negb (String.eqb actualHash expectedHash)
          then Some (HashMismatch algorithm expectedHash actualHash)
          else None
      end.

(** The outcome of the GET request of [Download]: the request cannot be
    built, the transport fails, or a response arrives with its status and
    the bytes its body delivers, completely ([true]) or up to a read
    error ([false]). *)
Inductive httpOutcome :=
| BadRequest
| TransportError
| Response (status : Z) (body : string) (complete : bool).

(** [Download(release, dest)] *)
Definition Download (release : Release) (dest : string) (resp : httpOutcome)
  (w : OS.world) : option Error * OS.world :=
  if String.eqb (DownloadURL release) "" then (Some NoDownloadURL, w)
  else
    match resp with
    | BadRequest => (Some ErrCreatingDownloadRequest, w)
    | TransportError => (Some ErrDownloadingFile, w)
    | Response status body complete =>
        if negb (status =? 200) then (Some (DownloadFailedWithStatus status), w)
        else
          match OS.MkdirAll (Filepath.Dir dest) 493 w with
          | None => (Some ErrCreatingDestinationDirectory, w)
          | Some w1 =>
              match OS.OpenFile dest 438 w1 with
              | None => (Some ErrCreatingDestinationFile, w1)
              | Some w2 =>
                  match OS.Write dest body w2 with
                  | None => (Some ErrWritingToDestination, w2)
                  | Some w3 =>
                      if negb complete then (Some ErrWritingToDestination, w3)
                      else if negb (String.eqb (Checksum release) "") then
                        match verifyChecksum dest (Checksum release) w3 with
                        | Some e =>
                            (Some (ChecksumVerificationFailed e), OS.Remove_ dest w3)
                        | None => (None, w3)
                        end
                      else (None, w3)
                  end
              end
          end
    end.

End HTTPRepository.

(** *** The GitHub repository *)

Module GitHubRepository.
Import Strings Repository.

Record GitHubRepository := mkGitHubRepository {
  Owner : string;
  Repo : string;
  Token : string;
  AssetName : string
}.

(** An element of [githubRelease.Assets], with the fields the struct
    declares. *)
Record asset := mkAsset {
  ID : Z;
  Name : string;
  BrowserDownloadURL : string
}.

Record githubRelease := mkGithubRelease {
  TagName : string;
  ReleaseName : string;
  PublishedAt : Z;
  Assets : list asset
}.

(** An asset object of the release JSON that the API sends: the consumed
    keys [id], [name], [browser_download_url] and [digest]. *)
Record assetJSON := mkAssetJSON {
  json_id : Z;
  json_name : string;
  json_browser_download_url : string;
  json_digest : string
}.

Record releaseJSON := mkReleaseJSON {
  json_tag_name : string;
  json_release_name : string;
  json_published_at : Z;
  json_assets : list assetJSON
}.

(** [json.NewDecoder(resp.Body).Decode(&ghRelease)] on a well-formed
    response: each declared field takes the value of its key, and a key
    without a field in the struct is dropped. *)
Definition Decode (j : releaseJSON) : githubRelease :=
  mkGithubRelease (json_tag_name j) (json_release_name j) (json_published_at j)
    (map (fun a => mkAsset (json_id a) (json_name a) (json_browser_download_url a))
         (json_assets j)).

Inductive Error :=
| ReleaseHasNoAssets
| AssetNotFoundInRelease (name : string).

(** The search of [convertGitHubRelease] for the asset named [name]. *)
Definition find_asset (name : string) (assets : list asset) : string * string * Z :=
  match List.find (fun a => String.eqb (Name a) name) assets with
  | Some a => (BrowserDownloadURL a, Name a, ID a)
  | None => ("", "", 0)
  end.

(** [convertGitHubRelease] *)
Definition convertGitHubRelease (g : GitHubRepository) (ghRelease : githubRelease)
  : Release + Error :=
  match Assets ghRelease with
  | [] => inr ReleaseHasNoAssets
  | first :: _ =>
      let '(downloadURL, fileName, assetID) :=
        if negb (String.eqb (AssetName g) "")
        then find_asset (AssetName g) (Assets ghRelease)
        else (BrowserDownloadURL first, Name first, ID first) in
      if negb (String.eqb (AssetName g) "") && String.eqb downloadURL ""
      then inr (AssetNotFoundInRelease (AssetName g))
      else
        let downloadURL :=
          if negb (String.eqb (Token g) "") && negb (assetID =? 0)
          then "https://api.github.com/repos/" ++ Owner g ++ "/" ++ Repo g
               ++ "/releases/assets/" ++ Strconv.FormatInt assetID
          else downloadURL in
        inl (mkRelease (TagName ghRelease) downloadURL "" (PublishedAt ghRelease)
                       fileName assetID)
  end.

End GitHubRepository.

(** ** Package [version]: the comparison methods on parsed versions *)

Module VersionMethods.

(** Method [IsNewer] of [Version] *)
Definition IsNewer (v other : Version.Version) : bool :=
  Version.Compare v other >? 0.

(** Method [IsOlder] of [Version] *)
Definition IsOlder (v other : Version.Version) : bool :=
  Version.Compare v other <? 0.

(** Method [Equals] of [Version] *)
Definition Equals (v other : Version.Version) : bool :=
  Version.Compare v other =? 0.

End VersionMethods.

(** ** Package [repository]: the remaining calls *)

Module HTTPCalls.

(** [HTTPRepository.CompareVersions(current, latest)] *)
Definition CompareVersions (current latest : string)
  : bool + Version.CompareError :=
  Version.IsNewer latest current.

End HTTPCalls.

Module GitHubCalls.
Import Strings Repository GitHubRepository.

(** A GET request as the code builds it: the URL and the headers it sets,
    in the order it sets them. *)
Record request := mkRequest {
  reqURL : string;
  reqHeaders : list (string * string)
}.

(** What the API answers to a metadata request: the request cannot be
    built, the transport fails, or a response arrives with its status, its
    body and what the JSON decoder makes of the body ([None] for a decoding
    error). *)
Inductive apiOutcome :=
| RequestInvalid
| TransportFailure
| ApiResponse (status : Z) (body : string) (decoded : option releaseJSON).

Inductive Error :=
| ErrCreatingRequest
| ErrFetchingRelease
| APIReturnedStatus (status : Z) (body : string)
| ErrDecodingResponse
| ConvertError (e : GitHubRepository.Error)
| NoDownloadURL
| ErrCreatingDownloadRequest
| ErrDownloadingFile
| DownloadFailedWithStatus (status : Z)
| ErrCreatingDestinationDirectory
| ErrCreatingDestinationFile
| ErrWritingToDestination.

(** The headers of a metadata request. *)
Definition apiHeaders (g : GitHubRepository) : list (string * string) :=
  [("User-Agent", "guppy-updater"); ("Accept", "application/vnd.github.v3+json")]
  ++ (if negb (String.eqb (Token g) "")
      then [("Authorization", "token " ++ Token g)] else []).

(** The part that [GetLatestRelease] and [GetRelease] share: send the
    request, check the status, decode and convert. *)
Definition fetchRelease (g : GitHubRepository) (url : string)
  (server : request -> apiOutcome) : Release + Error :=
  match server (mkRequest url (apiHeaders g)) with
  | RequestInvalid => inr ErrCreatingRequest
  | TransportFailure => inr ErrFetchingRelease
  | ApiResponse status body decoded =>
      if negb (status =? 200) then inr (APIReturnedStatus status body)
      else match decoded with
           | None => inr ErrDecodingResponse
           | Some j =>
               match convertGitHubRelease g (Decode j) with
               | inl r => inl r
               | inr e => inr (ConvertError e)
               end
           end
  end.

(** [GitHubRepository.GetLatestRelease] *)
Definition GetLatestRelease (g : GitHubRepository)
  (server : request -> apiOutcome) : Release + Error :=
  fetchRelease g
    ("https://api.github.com/repos/" ++ Owner g ++ "/" ++ Repo g
     ++ "/releases/latest") server.

(** [GitHubRepository.GetRelease(version)] *)
Definition GetRelease (g : GitHubRepository) (version : string)
  (server : request -> apiOutcome) : Release + Error :=
  let version := if negb (HasPrefix version "v") then "v" ++ version
                 else version in
  fetchRelease g
    ("https://api.github.com/repos/" ++ Owner g ++ "/" ++ Repo g
     ++ "/releases/tags/" ++ version) server.

(** [GitHubRepository.CompareVersions(current, latest)] *)
Definition CompareVersions (current latest : string)
  : bool + Version.CompareError :=
  Version.IsNewer latest current.

(** The headers of a download request. *)
Definition downloadHeaders (g : GitHubRepository) : list (string * string) :=
  [("User-Agent", "guppy-updater"); ("Accept", "application/octet-stream")]
  ++ (if negb (String.eqb (Token g) "")
      then [("Authorization", "token " ++ Token g)] else []).

(** [GitHubRepository.Download(release, dest)]: the body is streamed to
    [dest]; nothing is verified and nothing is removed. *)
Definition Download (g : GitHubRepository) (release : Release) (dest : string)
  (server : request -> HTTPRepository.httpOutcome) (w : OS.world)
  : option Error * OS.world :=
  if String.eqb (DownloadURL release) "" then (Some NoDownloadURL, w)
  else
    match server (mkRequest (DownloadURL release) (downloadHeaders g)) with
    | HTTPRepository.BadRequest => (Some ErrCreatingDownloadRequest, w)
    | HTTPRepository.TransportError => (Some ErrDownloadingFile, w)
    | HTTPRepository.Response status body complete =>
        if negb (status =? 200) then (Some (DownloadFailedWithStatus status), w)
        else
          match OS.MkdirAll (Filepath.Dir dest) 493 w with
          | None => (Some ErrCreatingDestinationDirectory, w)
          | Some w1 =>
              match OS.OpenFile dest 438 w1 with
              | None => (Some ErrCreatingDestinationFile, w1)
              | Some w2 =>
                  match OS.Write dest body w2 with
                  | None => (Some ErrWritingToDestination, w2)
                  | Some w3 =>
                      if negb complete then (Some ErrWritingToDestination, w3)
                      else (None, w3)
                  end
              end
          end
    end.

End GitHubCalls.

(** ** The vocabulary of the properties *)

Module Spec.
Import Strings.

(** A string of decimal digits. *)
Fixpoint all_digits (s : string) : bool :=
  match s with
  | EmptyString => true
  | String c r =>
      match Strconv.digit_val c with Some _ => all_digits r | None => false end
  end.

(** What every parsed version satisfies: the three numbers are in the
    range of a non-negative [int], and neither suffix holds a plus sign. *)
Definition parsed_shape (v : Version.Version) : Prop :=
  0 <= Version.Major v <= Strconv.maxInt /\
  0 <= Version.Minor v <= Strconv.maxInt /\
  0 <= Version.Patch v <= Strconv.maxInt /\
  ContainsByte (Version.PreRelease v) "+" = false /\
  ContainsByte (Version.Build v) "+" = false.

(** The three numbers of a version joined by dots. *)
Definition core_of (v : Version.Version) : string :=
  Strconv.FormatInt (Version.Major v) ++ "." ++ Strconv.FormatInt (Version.Minor v)
    ++ "." ++ Strconv.FormatInt (Version.Patch v).







End Spec.

(** ** Sample states and inputs, after the tests of the repository *)

Module Samples.

(** An environment that denies nothing. *)
Definition no_denial : OS.op -> string -> bool := fun _ _ => false.

Definition hello_world : OS.world :=
  OS.mkWorld {[ "/tmp/testfile.txt" := OS.File 420 "Hello, World!";
                "/tmp" := OS.Dir 493 ]} no_denial.

Definition manifest_entry (version : string) : HTTPRepository.httpRelease :=
  HTTPRepository.mkHttpRelease version ("http://example.com/" ++ version) "" "" "".

(** A release response whose only asset carries a sha256 digest. *)
Definition digest_response : GitHubRepository.releaseJSON :=
  GitHubRepository.mkReleaseJSON "v1.0.0" "" 0
    [GitHubRepository.mkAssetJSON 123 "test-binary" "https://example.com/binary"
       "sha256:abc123def456"].

Definition abc_file : OS.world :=
  OS.mkWorld {[ "/dl/abc.bin" := OS.File 420 "abc"; "/dl" := OS.Dir 493 ]}
    no_denial.

(** A world in which the manifest server's artifact is about to be stored
    under [/dl]. *)
Definition empty_download_dir : OS.world :=
  OS.mkWorld {[ "/dl" := OS.Dir 493 ]} no_denial.

Definition release_with_wrong_hash : Repository.Release :=
  Repository.mkRelease "1.0.0" "http://example.com/app" "sha256:wronghash" 0
    "app" 0.

(** A world with an installed binary and a freshly downloaded one. *)
Definition installed (deny : OS.op -> string -> bool) : OS.world :=
  OS.mkWorld {[ "/app" := OS.Dir 493; "/app/bin" := OS.File 420 "v1";
                "/dl" := OS.Dir 493; "/dl/new" := OS.File 420 "v2" ]} deny.


(** The archives of the symlink tests: a regular file, a link to it, and a
    link that points out of the tree. *)
Definition extract_world : OS.world :=
  OS.mkWorld {[ "/t/test.zip" := OS.File 420 "PK";
                "/t/test.tar.gz" := OS.File 420 "gz";
                "/t" := OS.Dir 493; "/t/extract" := OS.Dir 493 ]} no_denial.


Definition tar_regular : ArchiveApplier.tarEntry :=
  ArchiveApplier.mkTarEntry "regular.txt" ArchiveApplier.TypeReg 420 "content" true.

Definition tar_link : ArchiveApplier.tarEntry :=
  ArchiveApplier.mkTarEntry "link.txt" ArchiveApplier.TypeSymlink 511 "" true.

Definition tar_evil_link : ArchiveApplier.tarEntry :=
  ArchiveApplier.mkTarEntry "evil_link.txt" ArchiveApplier.TypeSymlink 511 "" true.

Definition applier : ArchiveApplier.ArchiveApplier :=
  ArchiveApplier.mkArchiveApplier "/t/extract".

End Samples.

(** ** More vocabulary: digests and what a call leaves of the tree *)

Module Shape.

(** A lower-case hexadecimal digit. *)
Definition is_lower_hex (c : ascii) : bool :=
  let n := N_of_ascii c in
  ((48 <=? n) && (n <=? 57) || (97 <=? n) && (n <=? 102))%N.

Fixpoint all_lower_hex (s : string) : bool :=
  match s with
  | EmptyString => true
  | String c r => is_lower_hex c && all_lower_hex r
  end.

(** A value of one byte. *)
Definition is_byte (b : Z) : Prop := 0 <= b < 256.


(** What is left of a node after calls that only create and write: a
    directory or a link is as it was, a file is still a file. *)
Definition node_kept (before after : option OS.node) : Prop :=
  match before with
  | None => True
  | Some (OS.File _ _) => exists m c, after = Some (OS.File m c)
  | Some n => after = Some n
  end.

Definition keeps (w w' : OS.world) : Prop :=
  forall p, node_kept (OS.fs w !! p) (OS.fs w' !! p).

End Shape.

(** * Properties *)

Import Strings Strconv Spec Samples.

Example parse_full : Version.Parse "v1.2.3-beta-1+b+c"
  = inl (Version.mkVersion 1 2 3 "beta-1" "b").
Proof. reflexivity. Qed.

Example parse_cases :
  map Version.Parse ["1.2.3"; "v1.2.3"; "1.2.3-"; "01.2.3"; "1.2"; "1.2.3.4";
                     "a.b.c"; "1.2.x"; ""; "9223372036854775808.0.0"]
  = [ inl (Version.mkVersion 1 2 3 "" ""); inl (Version.mkVersion 1 2 3 "" "");
      inl (Version.mkVersion 1 2 3 "" ""); inl (Version.mkVersion 1 2 3 "" "");
      inr (Version.InvalidVersionFormat "1.2");
      inr (Version.InvalidVersionFormat "1.2.3.4");
      inr (Version.InvalidMajor "a"); inr (Version.InvalidPatch "x");
      inr (Version.InvalidVersionFormat "");
      inr (Version.InvalidMajor "9223372036854775808") ].
Proof. reflexivity. Qed.

(** The descending chain of the version tests. *)
Example is_newer_chain :
  map (fun p => Version.IsNewer (fst p) (snd p))
    [ ("2.0.0", "1.9.9"); ("1.9.9", "1.0.1"); ("1.0.1", "1.0.0");
      ("1.0.0", "1.0.0-beta"); ("1.0.0-beta", "1.0.0-alpha");
      ("1.0.0", "1.0.0"); ("1.0.0+a", "1.0.0+b"); ("1.0.0", "2.0.0") ]
  = [ inl true; inl true; inl true; inl true; inl true;
      inl false; inl false; inl false ].
Proof. reflexivity. Qed.

Example trim_space_cases :
  map TrimSpace ["  ab c  "; ""; "   "; "x"]
  = ["ab c"; ""; ""; "x"].
Proof. reflexivity. Qed.

Example has_suffix_cases :
  map (fun p => HasSuffix (fst p) (snd p))
    [ ("x.tar.gz", ".tar.gz"); ("x.tgz", ".tgz"); ("x.zip", ".zip");
      ("zip", ".zip"); ("x.zip.bak", ".zip") ]
  = [true; true; true; false; false].
Proof. reflexivity. Qed.

(** ** Strings: splitting and joining *)

Section SplitJoin.
Variable sep : ascii.

Lemma Split_nonempty (s : string) : Split s sep <> [].
Proof.
  destruct s as [|c r]; simpl; [discriminate|].
  destruct (Ascii.eqb c sep); [discriminate|].
  destruct (Split r sep); discriminate.
Qed.

Lemma Split_no_sep (s : string) :
  ContainsByte s sep = false -> Split s sep = [s].
Proof.
  induction s as [|c r IH]; simpl; intros H; [reflexivity|].
  apply orb_false_iff in H as [Hc Hr].
  rewrite Hc, (IH Hr). reflexivity.
Qed.

Lemma Split_app_sep (s1 s2 : string) :
  ContainsByte s1 sep = false ->
  Split (s1 ++ String sep s2) sep = s1 :: Split s2 sep.
Proof.
  induction s1 as [|c r IH]; simpl; intros H.
  - rewrite Ascii.eqb_refl. reflexivity.
  - apply orb_false_iff in H as [Hc Hr].
    rewrite Hc, (IH Hr). reflexivity.
Qed.

Lemma Join_Split (s : string) : Join (Split s sep) (String sep "") = s.
Proof.
  induction s as [|c r IH]; simpl; [reflexivity|].
  destruct (Ascii.eqb c sep) eqn:E.
  - apply Ascii.eqb_eq in E. subst c.
    pose proof (Split_nonempty r) as Hne.
    destruct (Split r sep) as [|p ps]; [contradiction|].
    simpl in *. rewrite IH. reflexivity.
  - pose proof (Split_nonempty r) as Hne.
    destruct (Split r sep) as [|p ps]; [contradiction|].
    destruct ps as [|q qs]; simpl in *; rewrite <- IH; reflexivity.
Qed.

Lemma Split_parts_no_sep (s p : string) :
  In p (Split s sep) -> ContainsByte p sep = false.
Proof.
  revert p. induction s as [|c r IH]; simpl; intros p Hin.
  - destruct Hin as [<-|[]]. reflexivity.
  - destruct (Ascii.eqb c sep) eqn:E.
    + destruct Hin as [<-|Hin]; [reflexivity|auto].
    + destruct (Split r sep) as [|q qs] eqn:Es.
      * destruct Hin as [<-|[]]. simpl. rewrite E. reflexivity.
      * destruct Hin as [<-|Hin].
        -- simpl. rewrite E. apply IH. left. reflexivity.
        -- apply IH. right. exact Hin.
Qed.

(** A byte that does not occur in [s] occurs in none of its pieces. *)
Lemma Split_parts_absent (d : ascii) (s p : string) :
  ContainsByte s d = false -> In p (Split s sep) -> ContainsByte p d = false.
Proof.
  revert p. induction s as [|c r IH]; simpl; intros p Hs Hin.
  - destruct Hin as [<-|[]]. reflexivity.
  - apply orb_false_iff in Hs as [Hc Hr].
    destruct (Ascii.eqb c sep) eqn:E.
    + destruct Hin as [<-|Hin]; [reflexivity|auto].
    + destruct (Split r sep) as [|q qs] eqn:Es.
      * destruct Hin as [<-|[]]. simpl. rewrite Hc. reflexivity.
      * destruct Hin as [<-|Hin].
        -- simpl. rewrite Hc. apply IH; [exact Hr|left; reflexivity].
        -- apply IH; [exact Hr|right; exact Hin].
Qed.

End SplitJoin.

Lemma ContainsByte_app (a b : string) (c : ascii) :
  ContainsByte (a ++ b) c = ContainsByte a c || ContainsByte b c.
Proof.
  induction a as [|x r IH]; simpl; [reflexivity|].
  rewrite IH, orb_assoc. reflexivity.
Qed.

Lemma ContainsByte_cons (d : ascii) (r : string) (c : ascii) :
  ContainsByte (String d r) c = Ascii.eqb d c || ContainsByte r c.
Proof. reflexivity. Qed.

Lemma Join_absent (d : ascii) (sepc : ascii) (l : list string) :
  Ascii.eqb sepc d = false ->
  (forall p, In p l -> ContainsByte p d = false) ->
  ContainsByte (Join l (String sepc "")) d = false.
Proof.
  intros Hd. induction l as [|e rest IH]; intros Hall; [reflexivity|].
  destruct rest as [|e' rest'].
  - simpl. apply Hall. left. reflexivity.
  - change (Join (e :: e' :: rest') (String sepc ""))
      with (e ++ String sepc "" ++ Join (e' :: rest') (String sepc "")).
    rewrite ContainsByte_app. simpl ContainsByte at 2.
    rewrite Hd, (Hall e (or_introl eq_refl)). simpl.
    apply IH. intros p Hp. apply Hall. right. exact Hp.
Qed.

(** ** Decimal numerals: [Atoi] reads back what [%d] prints *)

Lemma digit_val_digit_char (d : Z) :
  0 <= d < 10 -> digit_val (digit_char d) = Some d.
Proof.
  intros Hd. unfold digit_val, digit_char.
  rewrite N_ascii_embedding by lia.
  rewrite Z2N.id by lia.
  replace (48 <=? 48 + d) with true by (symmetry; apply Z.leb_le; lia).
  replace (48 + d <=? 57) with true by (symmetry; apply Z.leb_le; lia).
  simpl. f_equal. lia.
Qed.

Lemma digits_all_digits (f : nat) (n : Z) (acc : string) :
  0 <= n -> all_digits acc = true -> all_digits (digits f n acc) = true.
Proof.
  revert n acc. induction f as [|f IH]; intros n acc Hn Hacc; simpl; [exact Hacc|].
  assert (Hd : all_digits (String (digit_char (n mod 10)) acc) = true).
  { simpl. rewrite digit_val_digit_char by (apply Z.mod_pos_bound; lia). exact Hacc. }
  destruct (n <? 10); [exact Hd|].
  apply IH; [apply Z.div_pos; lia|exact Hd].
Qed.

Lemma digits_nonempty (f : nat) (n : Z) (acc : string) :
  digits (S f) n acc <> "".
Proof.
  revert n acc. induction f as [|f IH]; intros n acc.
  - simpl. destruct (n <? 10); discriminate.
  - change (digits (S (S f)) n acc)
      with (if n <? 10 then String (digit_char (n mod 10)) acc
            else digits (S f) (n / 10) (String (digit_char (n mod 10)) acc)).
    destruct (n <? 10); [discriminate|apply IH].
Qed.

(** Reading the digits of [n] after an accumulated value [a] shifts [a] by
    as many decimal places as [n] has digits. *)
Lemma parse_digits_digits (f : nat) :
  forall n acc, 0 <= n < 2 ^ Z.of_nat f -> (0 < f)%nat ->
  exists k, 0 <= k /\ forall a,
    parse_digits (digits f n acc) a = parse_digits acc (a * 10 ^ k + n).
Proof.
  induction f as [|f IH]; intros n acc Hn Hf; [lia|].
  simpl digits. destruct (n <? 10) eqn:E.
  - apply Z.ltb_lt in E. exists 1. split; [lia|]. intros a. simpl parse_digits.
    rewrite digit_val_digit_char by (apply Z.mod_pos_bound; lia).
    rewrite Z.mod_small by lia. f_equal.
  - apply Z.ltb_ge in E.
    assert (Hf' : (0 < f)%nat).
    { destruct f; [|lia]. simpl in Hn. lia. }
    assert (Hq : 0 <= n / 10 < 2 ^ Z.of_nat f).
    { split; [apply Z.div_pos; lia|].
      apply Z.div_lt_upper_bound; [lia|].
      rewrite Nat2Z.inj_succ, Z.pow_succ_r in Hn by lia. lia. }
    destruct (IH (n / 10) (String (digit_char (n mod 10)) acc) Hq Hf')
      as [k [Hk0 Hk]].
    exists (Z.succ k). split; [lia|]. intros a. rewrite Hk. simpl parse_digits.
    rewrite digit_val_digit_char by (apply Z.mod_pos_bound; lia).
    f_equal. rewrite Z.pow_succ_r by lia.
    pose proof (Z.div_mod n 10). lia.
Qed.

Lemma FormatInt_nonneg (n : Z) :
  0 <= n -> FormatInt n = digits (S (Z.to_nat (Z.log2 n))) n "".
Proof.
  intros Hn. unfold FormatInt.
  destruct (n <? 0) eqn:E; [apply Z.ltb_lt in E; lia|reflexivity].
Qed.

Lemma FormatInt_all_digits (n : Z) :
  0 <= n -> all_digits (FormatInt n) = true /\ FormatInt n <> "".
Proof.
  intros Hn. rewrite FormatInt_nonneg by exact Hn. split.
  - apply digits_all_digits; [exact Hn|reflexivity].
  - apply digits_nonempty.
Qed.

Lemma parse_digits_FormatInt (n : Z) :
  0 <= n -> parse_digits (FormatInt n) 0 = Some n.
Proof.
  intros Hn. rewrite FormatInt_nonneg by exact Hn.
  destruct (parse_digits_digits (S (Z.to_nat (Z.log2 n))) n "") as [k [_ Hk]].
  - split; [exact Hn|].
    rewrite Nat2Z.inj_succ, Z2Nat.id by apply Z.log2_nonneg.
    destruct (Z.eq_dec n 0) as [->|Hnz]; [reflexivity|].
    apply Z.log2_spec. lia.
  - lia.
  - rewrite Hk. simpl. reflexivity.
Qed.

(** A string of digits holds none of the bytes the parser splits on, and
    does not start with the letter v. *)
Lemma all_digits_absent (c : ascii) (s : string) :
  digit_val c = None -> all_digits s = true -> ContainsByte s c = false.
Proof.
  intros Hc. induction s as [|d r IH]; simpl; intros H; [reflexivity|].
  destruct (digit_val d) eqn:Ed; [|discriminate].
  rewrite (IH H), orb_false_r.
  apply Ascii.eqb_neq. intros ->. congruence.
Qed.

Lemma Atoi_FormatInt (n : Z) :
  0 <= n <= maxInt -> Atoi (FormatInt n) = Some n.
Proof.
  intros [Hn Hmax].
  destruct (FormatInt_all_digits n Hn) as [Hall Hne].
  pose proof (parse_digits_FormatInt n Hn) as Hp.
  unfold Atoi. destruct (FormatInt n) as [|c r] eqn:E; [contradiction|].
  simpl in Hall. destruct (digit_val c) eqn:Ec; [|discriminate].
  assert (Hm : Ascii.eqb c "-" = false).
  { apply Ascii.eqb_neq. intros ->. discriminate. }
  assert (Hpl : Ascii.eqb c "+" = false).
  { apply Ascii.eqb_neq. intros ->. discriminate. }
  rewrite Hm, Hpl, Hp.
  replace (minInt <=? n) with true
    by (symmetry; apply Z.leb_le; unfold minInt; lia).
  replace (n <=? maxInt) with true by (symmetry; apply Z.leb_le; lia).
  reflexivity.
Qed.

Lemma parse_digits_nonneg (s : string) :
  forall a n, 0 <= a -> parse_digits s a = Some n -> 0 <= n.
Proof.
  induction s as [|c r IH]; simpl; intros a n Ha H.
  - inversion H. subst. exact Ha.
  - destruct (digit_val c) as [d|] eqn:Ed; [|discriminate].
    apply (IH (a * 10 + d)); [|exact H].
    unfold digit_val in Ed.
    destruct ((48 <=? Z.of_N (N_of_ascii c)) && (Z.of_N (N_of_ascii c) <=? 57)) eqn:B;
      [|discriminate].
    apply andb_true_iff in B as [B1 B2]. apply Z.leb_le in B1.
    inversion Ed. lia.
Qed.

(** Without a minus sign in it, a string that [Atoi] accepts denotes a
    number between 0 and [maxInt]. *)
Lemma Atoi_range (s : string) (n : Z) :
  ContainsByte s "-" = false -> Atoi s = Some n -> 0 <= n <= maxInt.
Proof.
  intros Hs. unfold Atoi. destruct s as [|c r]; [discriminate|].
  simpl in Hs. apply orb_false_iff in Hs as [Hc _].
  rewrite Hc.
  assert (G : forall body,
    match body with
    | "" => None
    | String _ _ =>
        match parse_digits body 0 with
        | Some n0 => if (minInt <=? n0) && (n0 <=? maxInt) then Some n0 else None
        | None => None
        end
    end = Some n -> 0 <= n <= maxInt).
  { intros body Hb. destruct body as [|b bs]; [discriminate|].
    destruct (parse_digits (String b bs) 0) as [m|] eqn:Ep; [|discriminate].
    destruct ((minInt <=? m) && (m <=? maxInt)) eqn:B; [|discriminate].
    inversion Hb. subst m. apply andb_true_iff in B as [_ B2].
    apply Z.leb_le in B2. split; [|exact B2].
    apply (parse_digits_nonneg (String b bs) 0 n); [lia|exact Ep]. }
  destruct (Ascii.eqb c "+"); intros H;
    [exact (G r H)|exact (G (String c r) H)].
Qed.

(** ** Package [version]: the image of [Parse], rendering and order *)

Module VersionFacts.
Import Version.

Lemma hd_In (l : list string) : l <> [] -> In (hd "" l) l.
Proof. destruct l; [contradiction|left; reflexivity]. Qed.

Lemma Parse_shape (s : string) (v : Version) :
  Parse s = inl v -> parsed_shape v.
Proof.
  unfold Parse.
  set (parts := Split (TrimPrefix s "v") "+").
  set (h := hd "" parts).
  set (parts2 := Split h "-").
  set (core := hd "" parts2).
  assert (Hh : ContainsByte h "+" = false).
  { apply (Split_parts_no_sep "+" (TrimPrefix s "v")).
    apply hd_In, Split_nonempty. }
  assert (Hcore : ContainsByte core "-" = false).
  { apply (Split_parts_no_sep "-" h). apply hd_In, Split_nonempty. }
  assert (Hbuild : ContainsByte
            match parts with _ :: b :: _ => b | _ => "" end "+" = false).
  { pose proof (Split_parts_no_sep "+" (TrimPrefix s "v")) as Hp.
    fold parts in Hp. destruct parts as [|a [|b l]]; try reflexivity.
    apply Hp. right. left. reflexivity. }
  assert (Hpre : ContainsByte
            match parts2 with _ :: (_ :: _) as tl => Join tl "-" | _ => "" end
            "+" = false).
  { pose proof (Split_parts_absent "-" "+" h) as Hp. fold parts2 in Hp.
    destruct parts2 as [|a [|b l]]; try reflexivity.
    apply (Join_absent "+" "-"); [reflexivity|].
    intros p Hin. apply Hp; [exact Hh|right; exact Hin]. }
  pose proof (Split_parts_absent "." "-" core) as Hdots.
  destruct (Split core ".") as [|p0 [|p1 [|p2 [|p3 l]]]]; try discriminate.
  destruct (Atoi p0) as [major|] eqn:E0; [|discriminate].
  destruct (Atoi p1) as [minor|] eqn:E1; [|discriminate].
  destruct (Atoi p2) as [patch|] eqn:E2; [|discriminate].
  intros H. inversion H. subst v. clear H.
  unfold parsed_shape. simpl.
  repeat split; try exact Hpre; try exact Hbuild;
    first [ apply (Atoi_range p0 major); [apply Hdots; simpl; auto|exact E0]
          | apply (Atoi_range p1 minor); [apply Hdots; simpl; auto|exact E1]
          | apply (Atoi_range p2 patch); [apply Hdots; simpl; auto|exact E2] ].
Qed.

Lemma TrimPrefix_digit (c : ascii) (r : string) :
  digit_val c <> None -> TrimPrefix (String c r) "v" = String c r.
Proof.
  intros Hc. unfold TrimPrefix.
  change (strip_prefix "v" (String c r))
    with (if Ascii.eqb "v" c then strip_prefix "" r else None).
  destruct (Ascii.eqb "v" c) eqn:E; [|reflexivity].
  apply Ascii.eqb_eq in E. subst c. contradiction Hc. reflexivity.
Qed.

Lemma core_no (c : ascii) (v : Version) :
  parsed_shape v -> digit_val c = None -> Ascii.eqb "." c = false ->
  ContainsByte (core_of v) c = false.
Proof.
  intros (HM & Hm & Hp & _) Hc Hdot. unfold core_of.
  change ("." ++ FormatInt (Minor v) ++ "." ++ FormatInt (Patch v))
    with (String "." (FormatInt (Minor v) ++ String "." (FormatInt (Patch v)))).
  rewrite ContainsByte_app, ContainsByte_cons, ContainsByte_app,
    ContainsByte_cons, Hdot.
  rewrite !(all_digits_absent c) by
    (try exact Hc; apply FormatInt_all_digits; lia).
  reflexivity.
Qed.

Lemma Split_core (v : Version) :
  parsed_shape v ->
  Split (core_of v) "." =
    [FormatInt (Major v); FormatInt (Minor v); FormatInt (Patch v)].
Proof.
  intros (HM & Hm & Hp & _). unfold core_of.
  assert (D : forall n, 0 <= n -> ContainsByte (FormatInt n) "." = false).
  { intros n Hn. apply all_digits_absent; [reflexivity|].
    apply FormatInt_all_digits. exact Hn. }
  change ("." ++ FormatInt (Minor v) ++ "." ++ FormatInt (Patch v))
    with (String "." (FormatInt (Minor v) ++ String "." (FormatInt (Patch v)))).
  rewrite Split_app_sep by (apply D; lia).
  rewrite Split_app_sep by (apply D; lia).
  rewrite Split_no_sep by (apply D; lia).
  reflexivity.
Qed.

Lemma String_starts_with_digit (v : Version) :
  parsed_shape v ->
  exists c r, String_ v = String c r /\ digit_val c <> None.
Proof.
  intros Hs. pose proof Hs as (HM & _).
  destruct (FormatInt_all_digits (Major v)) as [Hall Hne]; [lia|].
  unfold String_. fold (core_of v). unfold core_of.
  destruct (FormatInt (Major v)) as [|c r]; [contradiction|].
  simpl in Hall. exists c.
  destruct (digit_val c) eqn:Ec; [|discriminate].
  destruct (String.eqb (PreRelease v) ""), (String.eqb (Build v) "");
    simpl; eexists; (split; [reflexivity|discriminate]).
Qed.

(** Parsing the rendering of a version of the parsed shape gives it back. *)
Lemma Parse_String_shape (v : Version) :
  parsed_shape v -> Parse (String_ v) = inl v.
Proof.
  intros Hs.
  destruct (String_starts_with_digit v Hs) as (c & r & Hcr & Hc).
  pose proof Hs as (HM & Hm & Hp & Hpre & Hbuild).
  unfold Parse. rewrite Hcr, (TrimPrefix_digit c r Hc), <- Hcr.
  unfold String_. fold (core_of v).
  set (s1 := if String.eqb (PreRelease v) "" then core_of v
             else core_of v ++ "-" ++ PreRelease v).
  assert (Hs1 : ContainsByte s1 "+" = false).
  { unfold s1. destruct (String.eqb (PreRelease v) "").
    - apply core_no; [exact Hs|reflexivity|reflexivity].
    - rewrite !ContainsByte_app, Hpre. simpl.
      rewrite core_no by (try exact Hs; reflexivity). reflexivity. }
  assert (Hsplit1 : Split (if String.eqb (Build v) "" then s1
                           else s1 ++ "+" ++ Build v) "+"
                    = if String.eqb (Build v) "" then [s1] else [s1; Build v]).
  { destruct (String.eqb (Build v) "").
    - apply Split_no_sep. exact Hs1.
    - change ("+" ++ Build v) with (String "+" (Build v)).
      rewrite Split_app_sep by exact Hs1.
      rewrite Split_no_sep by exact Hbuild. reflexivity. }
  rewrite Hsplit1.
  assert (Hhd : hd "" (if String.eqb (Build v) "" then [s1] else [s1; Build v]) = s1).
  { destruct (String.eqb (Build v) ""); reflexivity. }
  rewrite Hhd.
  assert (Hb : match (if String.eqb (Build v) "" then [s1] else [s1; Build v]) with
               | _ :: b :: _ => b | _ => "" end = Build v).
  { destruct (String.eqb (Build v) "") eqn:E; [|reflexivity].
    apply String.eqb_eq in E. symmetry. exact E. }
  rewrite Hb.
  assert (Hsplit2 : Split s1 "-" =
            if String.eqb (PreRelease v) "" then [core_of v]
            else core_of v :: Split (PreRelease v) "-").
  { unfold s1. destruct (String.eqb (PreRelease v) "").
    - apply Split_no_sep. apply core_no; [exact Hs|reflexivity|reflexivity].
    - change ("-" ++ PreRelease v) with (String "-" (PreRelease v)).
      apply Split_app_sep. apply core_no; [exact Hs|reflexivity|reflexivity]. }
  rewrite Hsplit2.
  assert (Hhd2 : hd "" (if String.eqb (PreRelease v) "" then [core_of v]
                        else core_of v :: Split (PreRelease v) "-") = core_of v).
  { destruct (String.eqb (PreRelease v) ""); reflexivity. }
  rewrite Hhd2.
  assert (Hp2 : match (if String.eqb (PreRelease v) "" then [core_of v]
                       else core_of v :: Split (PreRelease v) "-") with
                | _ :: (_ :: _) as tl => Join tl "-" | _ => "" end
                = PreRelease v).
  { destruct (String.eqb (PreRelease v) "") eqn:E.
    - apply String.eqb_eq in E. symmetry. exact E.
    - pose proof (Split_nonempty "-" (PreRelease v)) as Hne.
      pose proof (Join_Split "-" (PreRelease v)) as HJ.
      destruct (Split (PreRelease v) "-"); [contradiction|exact HJ]. }
  rewrite Hp2, (Split_core v Hs).
  rewrite !Atoi_FormatInt by lia.
  destruct v; reflexivity.
Qed.

End VersionFacts.

(** ** The order on versions *)

Module CompareFacts.
Import Version.

Lemma string_gt_antisym (a b : string) :
  a <> b -> string_gt a b = negb (string_gt b a).
Proof.
  intros Hne. unfold string_gt. rewrite (String.compare_antisym b a).
  destruct (String.compare a b) eqn:E; try reflexivity.
  apply String.compare_eq_iff in E. contradiction.
Qed.

Lemma gtb_flip (x y : Z) : x <> y -> (x >? y) = negb (y >? x).
Proof.
  intros Hne. rewrite !Z.gtb_ltb.
  destruct (Z.ltb_spec y x), (Z.ltb_spec x y); simpl; try reflexivity; lia.
Qed.

(** Swapping the arguments of [Compare] negates the result, for all
    versions, parsed or not. *)
Lemma Compare_swap (a b : Version) : Compare a b = - Compare b a.
Proof.
  unfold Compare.
  rewrite (Z.eqb_sym (Major b)), (Z.eqb_sym (Minor b)), (Z.eqb_sym (Patch b)).
  rewrite (String.eqb_sym (PreRelease b) (PreRelease a)).
  destruct (Z.eqb_spec (Major a) (Major b)) as [_|H]; simpl.
  2:{ rewrite (gtb_flip _ _ H). destruct (Major b >? Major a); reflexivity. }
  destruct (Z.eqb_spec (Minor a) (Minor b)) as [_|H]; simpl.
  2:{ rewrite (gtb_flip _ _ H). destruct (Minor b >? Minor a); reflexivity. }
  destruct (Z.eqb_spec (Patch a) (Patch b)) as [_|H]; simpl.
  2:{ rewrite (gtb_flip _ _ H). destruct (Patch b >? Patch a); reflexivity. }
  destruct (String.eqb_spec (PreRelease a) "") as [Ea|Ea],
           (String.eqb_spec (PreRelease b) "") as [Eb|Eb]; simpl;
    try reflexivity.
  - rewrite Ea, Eb. reflexivity.
  - destruct (String.eqb_spec (PreRelease a) (PreRelease b)) as [_|H]; simpl;
      [reflexivity|].
    rewrite (string_gt_antisym _ _ H).
    destruct (string_gt (PreRelease b) (PreRelease a)); reflexivity.
Qed.

Lemma Compare_refl (a : Version) : Compare a a = 0.
Proof. pose proof (Compare_swap a a). lia. Qed.

End CompareFacts.

(** C9.  For all successfully parsed versions [a] and [b],
    [Compare a b] is the negation of [Compare b a], and [Compare a a] is
    zero. *)
Theorem compare_antisymmetric (s t : string) (a b : Version.Version) :
  Version.Parse s = inl a -> Version.Parse t = inl b ->
  Version.Compare a b = - Version.Compare b a /\ Version.Compare a a = 0.
Proof.
  intros _ _. split.
  - apply CompareFacts.Compare_swap.
  - apply CompareFacts.Compare_refl.
Qed.

Lemma compare_antisymmetric_witness :
  Version.Compare (Version.mkVersion 1 0 0 "beta" "") (Version.mkVersion 1 0 0 "" "x")
    = - Version.Compare (Version.mkVersion 1 0 0 "" "x") (Version.mkVersion 1 0 0 "beta" "")
  /\ Version.Compare (Version.mkVersion 1 0 0 "beta" "")
       (Version.mkVersion 1 0 0 "beta" "") = 0.
Proof.
  apply (compare_antisymmetric "v1.0.0-beta" "1.0.0+x"); reflexivity.
Defined.

(** C10.  Whenever [Parse] accepts a string and yields [v], the rendering
    [String v] is accepted by [Parse] too and yields a version equal to [v]
    in all five fields. *)
Theorem parse_string_roundtrip (s : string) (v : Version.Version) :
  Version.Parse s = inl v -> Version.Parse (Version.String_ v) = inl v.
Proof.
  intros H. apply VersionFacts.Parse_String_shape.
  apply (VersionFacts.Parse_shape s). exact H.
Qed.

Lemma parse_string_roundtrip_witness :
  Version.Parse (Version.String_ (Version.mkVersion 1 2 3 "beta-1" "b"))
  = inl (Version.mkVersion 1 2 3 "beta-1" "b").
Proof.
  apply (parse_string_roundtrip "v1.2.3-beta-1+b+c"). reflexivity.
Defined.

Example sha256_abc : Crypto.EncodeToString (Crypto.sha256_Sum "abc")
  = "ba7816bf8f01cfea414140de5dae2223b00361a396177a9cb410ff61f20015ad".
Proof. vm_compute. reflexivity. Qed.
Example sha1_abc : Crypto.EncodeToString (Crypto.sha1_Sum "abc")
  = "a9993e364706816aba3e25717850c26c9cd0d89d".
Proof. vm_compute. reflexivity. Qed.
Example md5_abc : Crypto.EncodeToString (Crypto.md5_Sum "abc")
  = "900150983cd24fb0d6963f7d28e17f72".
Proof. vm_compute. reflexivity. Qed.
Example sha256_empty : Crypto.EncodeToString (Crypto.sha256_Sum "")
  = "e3b0c44298fc1c149afbf4c8996fb92427ae41e4649b934ca495991b7852b855".
Proof. vm_compute. reflexivity. Qed.
(** A message longer than one 64-byte block. *)
Example digests_two_blocks :
  let m := "guppy checks for new releases, downloads them, and applies the new version; guppy checks for new releases, downloads them, and applies the new version;" in
  (Crypto.EncodeToString (Crypto.sha256_Sum m),
   Crypto.EncodeToString (Crypto.sha1_Sum m),
   Crypto.EncodeToString (Crypto.md5_Sum m)) =
  ("d902613ad3d24eba19ab741b4aa204456f4de2cc4aa39f3fef281d73585724e3",
   "e64906bf290c15a7483d128f575fe3d93379cf42",
   "2c671aa81a0852ef0433a73e9befe81c").
Proof. vm_compute. reflexivity. Qed.

(** The table of the standard library's own test of [Clean]. *)
Example clean_table :
  map Filepath.Clean
  ["abc"; "abc/def"; "a/b/c"; "."; ".."; "../.."; "../../abc"; "/abc"; "/";
    ""; "abc/"; "abc/def/"; "a/b/c/"; "./"; "../"; "../../"; "/abc/";
    "abc//def//ghi"; "//abc"; "///abc"; "//abc//"; "abc//"; "abc/./def";
    "/./abc/def"; "abc/."; "abc/def/ghi/../jkl"; "abc/def/../ghi/../jkl";
    "abc/def/.."; "abc/def/../.."; "/abc/def/../.."; "abc/def/../../..";
    "/abc/def/../../.."; "abc/def/../../../ghi/jkl/../../../mno"; "/../abc";
    "abc/./../def"; "abc//./../def"; "abc/../../././../def" ]
  =
  ["abc"; "abc/def"; "a/b/c"; "."; ".."; "../.."; "../../abc"; "/abc"; "/";
    "."; "abc"; "abc/def"; "a/b/c"; "."; ".."; "../.."; "/abc";
    "abc/def/ghi"; "/abc"; "/abc"; "/abc"; "abc"; "abc/def"; "/abc/def";
    "abc"; "abc/def/jkl"; "abc/jkl"; "abc"; "."; "/"; ".."; "/";
    "../../mno"; "/abc"; "def"; "def"; "../../def" ].
Proof. reflexivity. Qed.

Example clean_examples :
  map Filepath.Clean ["/tmp/x/../../etc/passwd"; "a//b/./c/.."; "../../x"; "/.."; "a/.."; ""; "/"; "a/b/"; "../a/../.."]
  = ["/etc/passwd"; "a/b"; "../../x"; "/"; "."; "."; "/"; "a/b"; "../.."].
Proof. reflexivity. Qed.
Example join_examples :
  [Filepath.Join "/tmp/x" "../../../etc/passwd"; Filepath.Join "/tmp/x" "a/b.txt"; Filepath.Join "" "a"; Filepath.Join "." "a"; Filepath.Join "x" ""]
  = ["/etc/passwd"; "/tmp/x/a/b.txt"; "a"; "a"; "x"].
Proof. reflexivity. Qed.
Example dir_examples :
  map Filepath.Dir ["/tmp/x/app"; "app"; "/app"; "a/b/"; ""; "../app"]
  = ["/tmp/x"; "."; "/"; "a/b"; "."; ".."].
Proof. reflexivity. Qed.
Example base_examples :
  map Filepath.Base ["http://example.com/1.0.0"; "a/b/"; "///"; ""; "x"]
  = ["1.0.0"; "b"; "/"; "."; "x"].
Proof. reflexivity. Qed.
Example chain_examples :
  map Filepath.dirs_chain ["/tmp/x/a"; "a/b"; "/"; "."; ""]
  = [["/tmp"; "/tmp/x"; "/tmp/x/a"]; ["a"; "a/b"]; []; ["."]; []].
Proof. reflexivity. Qed.

(** ** Package [checksum] *)

Example verify_hello_upper :
  Checksum.VerifySHA256 "/tmp/testfile.txt"
    "  DFFD6021BB2BD5B0AF676290809EC3A53191DD81C7F70A4B28688A362182986F  "
    hello_world = (true, None).
Proof. vm_compute. reflexivity. Qed.

Example verify_hello_cases :
  map (fun p => Checksum.VerifySHA256 (fst p) (snd p) hello_world)
    [ ("/tmp/testfile.txt", "abc123");
      ("/tmp/testfile.txt", "");
      ("/tmp/nonexistent.txt", "abc123");
      ("/tmp", "abc123") ]
  = [ (false, None); (false, None);
      (false, Some Checksum.ErrOpeningFile);
      (false, Some Checksum.ErrCalculatingChecksum) ].
Proof. vm_compute. reflexivity. Qed.

(** C8.  For a file that can be opened and read, [VerifySHA256] returns
    [(false, nil)] when the SHA-256 digest of its content differs from the
    expected value (white space trimmed, letter case ignored) and
    [(true, nil)] when it agrees; an error is returned only when opening or
    reading the file fails. *)
Theorem verify_sha256_mismatch_is_not_an_error
  (filePath expected : string) (w : OS.world) :
  (forall content,
     OS.Open filePath w = true -> OS.ReadAll filePath w = Some content ->
     let digest := Crypto.EncodeToString (Crypto.sha256_Sum content) in
     (ToLower digest <> ToLower (TrimSpace expected) ->
        Checksum.VerifySHA256 filePath expected w = (false, None)) /\
     (ToLower digest = ToLower (TrimSpace expected) ->
        Checksum.VerifySHA256 filePath expected w = (true, None))) /\
  (forall e, snd (Checksum.VerifySHA256 filePath expected w) = Some e ->
     OS.Open filePath w = false \/ OS.ReadAll filePath w = None).
Proof.
  unfold Checksum.VerifySHA256. split.
  - intros content Hopen Hread. cbv zeta. rewrite Hopen, Hread. simpl negb.
    cbv iota. split; intros H.
    + apply String.eqb_neq in H. rewrite H. reflexivity.
    + apply String.eqb_eq in H. rewrite H. reflexivity.
  - intros e. destruct (OS.Open filePath w); simpl; [|auto].
    destruct (OS.ReadAll filePath w); simpl; [discriminate|auto].
Qed.

Lemma verify_sha256_mismatch_witness :
  OS.Open "/tmp/testfile.txt" hello_world = true /\
  OS.ReadAll "/tmp/testfile.txt" hello_world = Some "Hello, World!" /\
  Checksum.VerifySHA256 "/tmp/testfile.txt"
    "0000000000000000000000000000000000000000000000000000000000000000"
    hello_world = (false, None).
Proof.
  split; [vm_compute; reflexivity|]. split; [vm_compute; reflexivity|].
  destruct (verify_sha256_mismatch_is_not_an_error "/tmp/testfile.txt"
           "0000000000000000000000000000000000000000000000000000000000000000"
           hello_world) as [H _].
  apply (H "Hello, World!").
  - vm_compute; reflexivity.
  - vm_compute; reflexivity.
  - vm_compute. discriminate.
Defined.

(** ** The HTTP manifest repository: the latest release *)

Module LatestFacts.
Import Repository HTTPRepository.

Lemma IsNewer_unparsable_right (v latest : string) (e : Version.ParseError) :
  Version.Parse latest = inr e ->
  exists err, Version.IsNewer v latest = inr err.
Proof.
  intros H. unfold Version.IsNewer, Version.CompareStrings.
  destruct (Version.Parse v); rewrite ?H; eexists; reflexivity.
Qed.

(** Once the kept entry has a version that does not parse, no later entry
    replaces it. *)
Lemma latest_loop_stuck (rest : list httpRelease) (latest : httpRelease)
  (e : Version.ParseError) :
  Version.Parse (hVersion latest) = inr e ->
  latest_loop rest (Some latest) = Some latest.
Proof.
  intros H. induction rest as [|r rest IH]; simpl; [reflexivity|].
  destruct (IsNewer_unparsable_right (hVersion r) (hVersion latest) e H)
    as [err ->].
  exact IH.
Qed.

End LatestFacts.

Example latest_of_unordered_manifest :
  HTTPRepository.GetLatestRelease
    (Some [manifest_entry "2.0.0"; manifest_entry "3.0.0"; manifest_entry "1.0.0"])
  = inl (HTTPRepository.convertHTTPRelease (manifest_entry "3.0.0")).
Proof. vm_compute. reflexivity. Qed.

Example latest_skips_later_unparsable :
  HTTPRepository.GetLatestRelease
    (Some [manifest_entry "1.0.0"; manifest_entry "nightly"; manifest_entry "1.2.0"])
  = inl (HTTPRepository.convertHTTPRelease (manifest_entry "1.2.0")).
Proof. vm_compute. reflexivity. Qed.

Example select_checksum_priority :
  map HTTPRepository.selectChecksum
    [ HTTPRepository.mkHttpRelease "1.0.0" "u" "m" "s1" "s256";
      HTTPRepository.mkHttpRelease "1.0.0" "u" "m" "s1" "";
      HTTPRepository.mkHttpRelease "1.0.0" "u" "m" "" "";
      HTTPRepository.mkHttpRelease "1.0.0" "u" "" "" "" ]
  = [ ("sha256:s256", "SHA256"); ("sha1:s1", "SHA1"); ("md5:m", "MD5"); ("", "") ].
Proof. reflexivity. Qed.

Example latest_of_empty_manifest :
  HTTPRepository.GetLatestRelease (Some []) = inr HTTPRepository.NoReleasesFound.
Proof. reflexivity. Qed.

(** C4.  The scan of [GetLatestRelease] takes the first entry of the
    manifest without parsing its version: when that version does not parse,
    the first entry is what [GetLatestRelease] returns, whatever follows it,
    and no error is raised. *)
Theorem latest_release_returns_unparsable_first_entry
  (first : HTTPRepository.httpRelease) (rest : list HTTPRepository.httpRelease)
  (e : Version.ParseError) :
  Version.Parse (HTTPRepository.hVersion first) = inr e ->
  HTTPRepository.GetLatestRelease (Some (first :: rest))
  = inl (HTTPRepository.convertHTTPRelease first).
Proof.
  intros H. unfold HTTPRepository.GetLatestRelease.
  change (HTTPRepository.latest_loop (first :: rest) None)
    with (HTTPRepository.latest_loop rest (Some first)).
  rewrite (LatestFacts.latest_loop_stuck rest first e H). reflexivity.
Qed.

Lemma latest_release_unparsable_first_witness :
  Version.Parse "not-a-version" = inr (Version.InvalidVersionFormat "not") /\
  HTTPRepository.GetLatestRelease
    (Some [manifest_entry "not-a-version"; manifest_entry "1.0.0"])
  = inl (HTTPRepository.convertHTTPRelease (manifest_entry "not-a-version")).
Proof.
  split; [reflexivity|].
  apply (latest_release_returns_unparsable_first_entry
           (manifest_entry "not-a-version") [manifest_entry "1.0.0"]
           (Version.InvalidVersionFormat "not")).
  reflexivity.
Defined.

(** ** The GitHub repository: the checksum of a converted release *)

(** C5.  [convertGitHubRelease] never fills [Release.Checksum]: the asset
    struct has no digest field, so the digest of the response is dropped by
    the decoder and every converted release has an empty checksum, also
    when the selected asset carries a digest of the sha256 form. *)
Theorem github_release_checksum_is_always_empty
  (g : GitHubRepository.GitHubRepository) (j : GitHubRepository.releaseJSON)
  (r : Repository.Release) :
  GitHubRepository.convertGitHubRelease g (GitHubRepository.Decode j) = inl r ->
  Repository.Checksum r = "".
Proof.
  unfold GitHubRepository.convertGitHubRelease.
  destruct (GitHubRepository.Assets (GitHubRepository.Decode j)) as [|first l];
    [discriminate|].
  destruct (if negb (String.eqb (GitHubRepository.AssetName g) "")
            then GitHubRepository.find_asset (GitHubRepository.AssetName g) (first :: l)
            else (GitHubRepository.BrowserDownloadURL first,
                  GitHubRepository.Name first, GitHubRepository.ID first))
    as [[downloadURL fileName] assetID].
  destruct (negb (String.eqb (GitHubRepository.AssetName g) "")
            && String.eqb downloadURL ""); [discriminate|].
  intros H. inversion H. reflexivity.
Qed.

Lemma github_release_checksum_witness :
  GitHubRepository.convertGitHubRelease
    (GitHubRepository.mkGitHubRepository "owner" "repo" "" "")
    (GitHubRepository.Decode digest_response)
  = inl (Repository.mkRelease "v1.0.0" "https://example.com/binary" "" 0
           "test-binary" 123) /\
  Repository.Checksum
    (Repository.mkRelease "v1.0.0" "https://example.com/binary" "" 0
       "test-binary" 123) = "".
Proof.
  split; [reflexivity|].
  apply (github_release_checksum_is_always_empty
           (GitHubRepository.mkGitHubRepository "owner" "repo" "" "")
           digest_response).
  reflexivity.
Defined.

(** ** The HTTP manifest repository: checksum verification and download *)

Example verify_checksum_cases :
  map (fun c => HTTPRepository.verifyChecksum "/dl/abc.bin" c abc_file)
    [ "sha256:ba7816bf8f01cfea414140de5dae2223b00361a396177a9cb410ff61f20015ad";
      "sha1:a9993e364706816aba3e25717850c26c9cd0d89d";
      "md5:900150983cd24fb0d6963f7d28e17f72";
      "sha512:abc123"; "sha256abc123"; ""; ":abc"; "md5:" ]
  = [ None; None; None;
      Some (HTTPRepository.UnsupportedHashAlgorithm "sha512");
      Some (HTTPRepository.InvalidChecksumFormat "sha256abc123");
      Some (HTTPRepository.InvalidChecksumFormat "");
      Some (HTTPRepository.InvalidChecksumFormat ":abc");
      Some (HTTPRepository.InvalidChecksumFormat "md5:") ].
Proof. vm_compute. reflexivity. Qed.

Module VerifyFacts.
Import HTTPRepository.

(** A checksum with a colon is its two parts around the first colon. *)
Lemma cut_at_colon_spec (checksum : string) :
  if ContainsByte checksum ":"
  then checksum = fst (cut_at_colon checksum) ++ ":" ++ snd (cut_at_colon checksum)
  else cut_at_colon checksum = ("", "").
Proof.
  induction checksum as [|c rest IH]; [reflexivity|].
  rewrite ContainsByte_cons.
  change (cut_at_colon (String c rest))
    with (if Ascii.eqb c ":" then ("", rest)
          else match cut_at_colon rest with
               | (a, e) => if ContainsByte rest ":" then (String c a, e) else ("", "")
               end).
  destruct (Ascii.eqb c ":") eqn:E.
  - apply Ascii.eqb_eq in E. subst c. reflexivity.
  - simpl orb. destruct (cut_at_colon rest) as [a e].
    destruct (ContainsByte rest ":"); [|reflexivity].
    simpl in *. rewrite IH at 1. reflexivity.
Qed.

(** What [verifyChecksum] accepts: the name of one of the three
    algorithms, a colon, and the lower-case hexadecimal digest of the
    file, byte for byte. *)
Lemma verifyChecksum_accepts (filePath checksum : string) (w : OS.world) :
  verifyChecksum filePath checksum w = None ->
  exists content,
    OS.ReadAll filePath w = Some content /\
    (checksum = "sha256:" ++ Crypto.EncodeToString (Crypto.sha256_Sum content) \/
     checksum = "sha1:" ++ Crypto.EncodeToString (Crypto.sha1_Sum content) \/
     checksum = "md5:" ++ Crypto.EncodeToString (Crypto.md5_Sum content)).
Proof.
  unfold verifyChecksum. destruct (negb (OS.Open filePath w)); [discriminate|].
  pose proof (cut_at_colon_spec checksum) as Hcut.
  destruct (cut_at_colon checksum) as [algorithm expectedHash].
  destruct (String.eqb_spec algorithm "") as [->|Halg]; simpl orb.
  { destruct (String.eqb expectedHash ""); discriminate. }
  destruct (String.eqb expectedHash ""); [discriminate|].
  destruct (ContainsByte checksum ":"); [|congruence].
  simpl in Hcut. intros H.
  destruct (OS.ReadAll filePath w) as [content|] eqn:ER.
  2:{ destruct (String.eqb algorithm "sha256"); [discriminate|].
      destruct (String.eqb algorithm "sha1"); [discriminate|].
      destruct (String.eqb algorithm "md5"); discriminate. }
  exists content. split; [reflexivity|].
  assert (G : forall sum : string -> list Z,
    (if negb (String.eqb (Crypto.EncodeToString (sum content)) expectedHash)
     then Some (HashMismatch algorithm expectedHash
                  (Crypto.EncodeToString (sum content)))
     else None) = None ->
    expectedHash = Crypto.EncodeToString (sum content)).
  { intros sum G. destruct (String.eqb_spec (Crypto.EncodeToString (sum content))
                             expectedHash); [congruence|discriminate]. }
  destruct (String.eqb_spec algorithm "sha256") as [->|_].
  { left. rewrite Hcut, (G _ H). reflexivity. }
  destruct (String.eqb_spec algorithm "sha1") as [->|_].
  { right. left. rewrite Hcut, (G _ H). reflexivity. }
  destruct (String.eqb_spec algorithm "md5") as [->|_]; [|discriminate].
  right. right. rewrite Hcut, (G _ H). reflexivity.
Qed.

End VerifyFacts.

(** C7.  [verifyChecksum] compares the expected digest with the lower-case
    hexadecimal digest byte for byte: what it accepts is the algorithm
    name, a colon and exactly that digest, so that for each of the three
    algorithms the digest of a file in lower case is accepted and the same
    digest in upper case is rejected as a mismatch. *)
Theorem verify_checksum_is_case_sensitive :
  (forall filePath checksum w,
     HTTPRepository.verifyChecksum filePath checksum w = None ->
     exists content,
       OS.ReadAll filePath w = Some content /\
       (checksum = "sha256:" ++ Crypto.EncodeToString (Crypto.sha256_Sum content) \/
        checksum = "sha1:" ++ Crypto.EncodeToString (Crypto.sha1_Sum content) \/
        checksum = "md5:" ++ Crypto.EncodeToString (Crypto.md5_Sum content))) /\
  HTTPRepository.verifyChecksum "/dl/abc.bin"
    "sha256:ba7816bf8f01cfea414140de5dae2223b00361a396177a9cb410ff61f20015ad"
    abc_file = None /\
  HTTPRepository.verifyChecksum "/dl/abc.bin"
    "sha256:BA7816BF8F01CFEA414140DE5DAE2223B00361A396177A9CB410FF61F20015AD"
    abc_file
  = Some (HTTPRepository.HashMismatch "sha256"
      "BA7816BF8F01CFEA414140DE5DAE2223B00361A396177A9CB410FF61F20015AD"
      "ba7816bf8f01cfea414140de5dae2223b00361a396177a9cb410ff61f20015ad") /\
  HTTPRepository.verifyChecksum "/dl/abc.bin"
    "sha1:a9993e364706816aba3e25717850c26c9cd0d89d" abc_file = None /\
  HTTPRepository.verifyChecksum "/dl/abc.bin"
    "sha1:A9993E364706816ABA3E25717850C26C9CD0D89D" abc_file
  = Some (HTTPRepository.HashMismatch "sha1"
      "A9993E364706816ABA3E25717850C26C9CD0D89D"
      "a9993e364706816aba3e25717850c26c9cd0d89d") /\
  HTTPRepository.verifyChecksum "/dl/abc.bin"
    "md5:900150983cd24fb0d6963f7d28e17f72" abc_file = None /\
  HTTPRepository.verifyChecksum "/dl/abc.bin"
    "md5:900150983CD24FB0D6963F7D28E17F72" abc_file
  = Some (HTTPRepository.HashMismatch "md5"
      "900150983CD24FB0D6963F7D28E17F72"
      "900150983cd24fb0d6963f7d28e17f72").
Proof.
  split; [exact VerifyFacts.verifyChecksum_accepts|].
  repeat split; vm_compute; reflexivity.
Qed.

Lemma verify_checksum_is_case_sensitive_witness :
  HTTPRepository.verifyChecksum "/dl/abc.bin"
    "md5:900150983cd24fb0d6963f7d28e17f72" abc_file = None /\
  exists content,
    OS.ReadAll "/dl/abc.bin" abc_file = Some content /\
    ("md5:900150983cd24fb0d6963f7d28e17f72"
       = "sha256:" ++ Crypto.EncodeToString (Crypto.sha256_Sum content) \/
     "md5:900150983cd24fb0d6963f7d28e17f72"
       = "sha1:" ++ Crypto.EncodeToString (Crypto.sha1_Sum content) \/
     "md5:900150983cd24fb0d6963f7d28e17f72"
       = "md5:" ++ Crypto.EncodeToString (Crypto.md5_Sum content)).
Proof.
  destruct verify_checksum_is_case_sensitive as [H (_ & _ & _ & _ & Hmd5 & _)].
  split; [exact Hmd5|].
  exact (H "/dl/abc.bin" "md5:900150983cd24fb0d6963f7d28e17f72" abc_file Hmd5).
Defined.

(** ** The operating-system calls: what each one changes *)

Module OSFacts.
Import OS.

Lemma OpenFile_spec (name : string) (perm : Z) (w w' : world) :
  OpenFile name perm w = Some w' ->
  denied w' = denied w /\
  (exists m, fs w' = <[name := File m ""]> (fs w)) /\
  (fs w !! name = None \/ exists m c, fs w !! name = Some (File m c)).
Proof.
  unfold OpenFile. destruct (denied w OpCreate name); [discriminate|].
  destruct (fs w !! name) as [[m c|m|t]|] eqn:E; try discriminate;
    intros H; inversion H; subst w'; simpl;
    (split; [reflexivity|split; [eexists; reflexivity|]]).
  - right. exists m, c. reflexivity.
  - left. reflexivity.
Qed.

Lemma Write_spec (name content : string) (w w' : world) :
  Write name content w = Some w' ->
  denied w' = denied w /\
  exists m c, fs w !! name = Some (File m c) /\
              fs w' = <[name := File m content]> (fs w).
Proof.
  unfold Write. destruct (denied w OpWrite name); [discriminate|].
  destruct (fs w !! name) as [[m c|m|t]|] eqn:E; try discriminate.
  intros H; inversion H; subst w'; simpl.
  split; [reflexivity|]. exists m, c. split; reflexivity.
Qed.

Lemma mkdir_if_free_lookup (perm : Z) (m : gmap string node) (d q : string) :
  mkdir_if_free perm m d !! q = m !! q \/
  (m !! q = None /\ mkdir_if_free perm m d !! q = Some (Dir (Perm perm))).
Proof.
  unfold mkdir_if_free. destruct (m !! d) eqn:E; [left; reflexivity|].
  destruct (decide (d = q)) as [->|Hne].
  - right. split; [exact E|apply lookup_insert_eq].
  - left. apply lookup_insert_ne. exact Hne.
Qed.

Lemma mkdirs_lookup (perm : Z) (chain : list string) :
  forall (m : gmap string node) (q : string),
  fold_left (mkdir_if_free perm) chain m !! q = m !! q \/
  (m !! q = None /\
   fold_left (mkdir_if_free perm) chain m !! q = Some (Dir (Perm perm))).
Proof.
  induction chain as [|d chain IH]; intros m q; simpl; [left; reflexivity|].
  destruct (IH (mkdir_if_free perm m d) q) as [H|[H1 H2]];
    destruct (mkdir_if_free_lookup perm m d q) as [G|[G1 G2]].
  - left. congruence.
  - right. split; [exact G1|congruence].
  - right. split; [congruence|exact H2].
  - congruence.
Qed.

(** [MkdirAll] leaves every node in place and only adds directories. *)
Lemma MkdirAll_spec (path : string) (perm : Z) (w w' : world) :
  MkdirAll path perm w = Some w' ->
  denied w' = denied w /\
  forall q, fs w' !! q = fs w !! q \/
            (fs w !! q = None /\ fs w' !! q = Some (Dir (Perm perm))).
Proof.
  unfold MkdirAll. destruct (denied w OpMkdir path); [discriminate|].
  destruct (forallb _ _); [|discriminate].
  intros H; inversion H; subst w'; simpl. split; [reflexivity|].
  intros q. apply mkdirs_lookup.
Qed.





End OSFacts.

Module DownloadFacts.
Import Repository HTTPRepository.

Example download_cases :
  let ok := Response 200 "test content" true in
  let fsys (r : option Error * OS.world) := (fst r, OS.fs (snd r) !! "/dl/app") in
  [ fsys (Download (mkRelease "1.0.0" "http://example.com/app"
       "sha256:6ae8a75555209fd6c44157c0aed8016e763ff435a19cf186f76863140143ff72"
       0 "app" 0) "/dl/app" ok empty_download_dir);
    fsys (Download (mkRelease "1.0.0" "http://example.com/app" "" 0 "app" 0)
            "/dl/app" ok empty_download_dir);
    fsys (Download release_with_wrong_hash "/dl/app" ok empty_download_dir) ]
  = [ (None, Some (OS.File 438 "test content"));
      (None, Some (OS.File 438 "test content"));
      (Some (ChecksumVerificationFailed
               (HashMismatch "sha256" "wronghash"
                  "6ae8a75555209fd6c44157c0aed8016e763ff435a19cf186f76863140143ff72")),
       None) ].
Proof. vm_compute. reflexivity. Qed.

End DownloadFacts.



(** ** The atomic binary replace *)

Module BinaryFacts.
Import OS BinaryApplier.






Example apply_replaces_target :
  let r := Apply "/dl/new" "/app/bin" (installed no_denial) in
  (fst r, fs (snd r) !! "/app/bin", fs (snd r) !! "/app/bin.tmp")
  = (None, Some (File 493 "v2"), None).
Proof. vm_compute. reflexivity. Qed.

Example apply_missing_source :
  fst (Apply "/dl/none" "/app/bin" (installed no_denial))
  = Some ErrOpeningSourceFile.
Proof. vm_compute. reflexivity. Qed.

Example apply_source_is_directory :
  let r := Apply "/dl" "/app/bin" (installed no_denial) in
  (fst r, fs (snd r) !! "/app/bin", fs (snd r) !! "/app/bin.tmp")
  = (Some ErrCopyingFile, Some (File 420 "v1"), None).
Proof. vm_compute. reflexivity. Qed.

End BinaryFacts.




(** ** Archive extraction *)

Module ArchiveFacts.
Import OS ArchiveApplier.










End ArchiveFacts.

Module LoopFacts.
Import OS ArchiveApplier.

(** The zip loop over a list that starts with [pre]: an error inside
    [pre] is the result, and otherwise the loop goes on with the rest. *)
Lemma extractZip_loop_app (dest : string) (pre rest : list zipFile) :
  forall w,
  extractZip_loop dest (pre ++ rest) w =
    match extractZip_loop dest pre w with
    | (Some e, w1) => (Some e, w1)
    | (None, w1) => extractZip_loop dest rest w1
    end.
Proof.
  induction pre as [|file pre IH]; intros w; simpl; [reflexivity|].
  destruct (negb (HasPrefix _ _)); [reflexivity|].
  destruct (IsDir (zMode file)).
  - destruct (MkdirAll _ _ w) as [w1|]; [apply IH|reflexivity].
  - destruct (MkdirAll _ _ w) as [w1|]; [|reflexivity].
    destruct (extractZipFile file _ w1) as [[e|] w2]; [reflexivity|apply IH].
Qed.

Lemma extractTarGz_loop_app (dest : string) (pre rest : list tarEntry)
  (eof : bool) :
  forall w,
  extractTarGz_loop dest (pre ++ rest) eof w =
    match extractTarGz_loop dest pre true w with
    | (Some e, w1) => (Some e, w1)
    | (None, w1) => extractTarGz_loop dest rest eof w1
    end.
Proof.
  induction pre as [|h pre IH]; intros w; simpl; [reflexivity|].
  destruct (negb (HasPrefix _ _)); [reflexivity|].
  destruct (Ascii.eqb (tTypeflag h) TypeDir).
  { destruct (MkdirAll _ _ w) as [w1|]; [apply IH|reflexivity]. }
  destruct (Ascii.eqb (tTypeflag h) TypeReg); [|apply IH].
  destruct (MkdirAll _ _ w) as [w1|]; [|reflexivity].
  destruct (OpenFile _ _ w1) as [w2|]; [|reflexivity].
  destruct (Write _ _ w2) as [w3|]; [|reflexivity].
  destruct (negb (tReads h)); [reflexivity|].
  destruct (negb (Close _ w3)); [reflexivity|apply IH].
Qed.



End LoopFacts.

Module ApplyFacts.
Import OS ArchiveApplier.






End ApplyFacts.


(** The test is on the text of the cleaned paths.  Under an absolute
    root the traversal name of the tests is caught; under a relative root
    that is itself made of dot-dot elements, a name that climbs further
    still starts with the root and passes. *)
Example traversal_test_is_lexical :
  map (fun p => (Filepath.Join (fst p) (snd p),
                 HasPrefix (Filepath.Join (fst p) (snd p))
                           (Filepath.Clean (fst p) ++ "/")))
    [ ("/opt/app", "../../../etc/passwd"); ("/opt/app", "/etc/passwd");
      ("/opt/app", "."); ("/opt/app", "a/../../app2/x");
      ("..", "../x") ]
  = [ ("/etc/passwd", false); ("/opt/app/etc/passwd", true);
      ("/opt/app", false); ("/opt/app2/x", false);
      ("../../x", true) ].
Proof. reflexivity. Qed.


(** ** Archive extraction: which entries leave a file behind *)

Module ExtractedFacts.
Import OS ArchiveApplier.








End ExtractedFacts.

Module SymlinkFacts.
Import OS ArchiveApplier.

Example tar_with_links_extracts_regular_only :
  let r := Apply applier "/t/test.tar.gz" "/t/extract/dummy"
             (TarGzArchive [tar_regular; tar_link; tar_evil_link] true)
             extract_world in
  (fst r, fs (snd r) !! "/t/extract/regular.txt",
   fs (snd r) !! "/t/extract/link.txt", fs (snd r) !! "/t/extract/evil_link.txt")
  = (None, Some (File 420 "content"), None, None).
Proof. vm_compute. reflexivity. Qed.

End SymlinkFacts.




(** * Further properties of the code *)

(** ** The order that [Compare] puts on versions *)

Module OrderFacts.
Import Version VersionMethods.

Lemma string_gt_leb (a b : string) : string_gt a b = negb (String.leb a b).
Proof.
  unfold string_gt, String.leb. destruct (String.compare a b); reflexivity.
Qed.

Lemma string_gt_trans (a b c : string) :
  string_gt a b = false -> string_gt b c = false -> string_gt a c = false.
Proof.
  rewrite !string_gt_leb, !negb_false_iff. intros Hab Hbc.
  apply Is_true_true. apply Is_true_true in Hab, Hbc.
  exact (transitivity (R := String.le) Hab Hbc).
Qed.

(** The key that [Compare] looks at: the build metadata is not part of it. *)
Lemma Compare_zero (a b : Version) :
  Compare a b = 0 <->
  Major a = Major b /\ Minor a = Minor b /\ Patch a = Patch b /\
  PreRelease a = PreRelease b.
Proof.
  unfold Compare. split.
  - destruct (Z.eqb_spec (Major a) (Major b)); simpl;
      [|destruct (Major a >? Major b); discriminate].
    destruct (Z.eqb_spec (Minor a) (Minor b)); simpl;
      [|destruct (Minor a >? Minor b); discriminate].
    destruct (Z.eqb_spec (Patch a) (Patch b)); simpl;
      [|destruct (Patch a >? Patch b); discriminate].
    destruct (String.eqb_spec (PreRelease a) (PreRelease b)) as [E|N]; simpl.
    + intros _. auto.
    + destruct (String.eqb (PreRelease a) ""), (String.eqb (PreRelease b) "");
        simpl; try discriminate;
        destruct (string_gt (PreRelease a) (PreRelease b)); discriminate.
  - intros (-> & -> & -> & ->). rewrite !Z.eqb_refl, String.eqb_refl. simpl.
    destruct (String.eqb (PreRelease b) ""); reflexivity.
Qed.

Lemma Compare_range (a b : Version) :
  Compare a b = -1 \/ Compare a b = 0 \/ Compare a b = 1.
Proof.
  unfold Compare.
  repeat match goal with
         | |- context [if ?c then _ else _] => destruct c
         end; auto.
Qed.

Lemma Compare_congr_l (a a' b : Version) :
  Compare a a' = 0 -> Compare a b = Compare a' b.
Proof.
  intros H. apply Compare_zero in H as (H1 & H2 & H3 & H4).
  unfold Compare. rewrite H1, H2, H3, H4. reflexivity.
Qed.

Lemma Compare_trans (a b c : Version) :
  Compare a b <= 0 -> Compare b c <= 0 -> Compare a c <= 0.
Proof.
  unfold Compare.
  destruct (Z.eqb_spec (Major a) (Major b)), (Z.eqb_spec (Major b) (Major c)),
           (Z.eqb_spec (Major a) (Major c)); simpl; try (exfalso; lia);
    try (destruct (Z.gtb_spec (Major a) (Major b)),
                  (Z.gtb_spec (Major b) (Major c)),
                  (Z.gtb_spec (Major a) (Major c)); lia).
  destruct (Z.eqb_spec (Minor a) (Minor b)), (Z.eqb_spec (Minor b) (Minor c)),
           (Z.eqb_spec (Minor a) (Minor c)); simpl; try (exfalso; lia);
    try (destruct (Z.gtb_spec (Minor a) (Minor b)),
                  (Z.gtb_spec (Minor b) (Minor c)),
                  (Z.gtb_spec (Minor a) (Minor c)); lia).
  destruct (Z.eqb_spec (Patch a) (Patch b)), (Z.eqb_spec (Patch b) (Patch c)),
           (Z.eqb_spec (Patch a) (Patch c)); simpl; try (exfalso; lia);
    try (destruct (Z.gtb_spec (Patch a) (Patch b)),
                  (Z.gtb_spec (Patch b) (Patch c)),
                  (Z.gtb_spec (Patch a) (Patch c)); lia).
  generalize (PreRelease a) (PreRelease b) (PreRelease c). intros p q r.
  destruct (String.eqb p "") eqn:Ep, (String.eqb q "") eqn:Eq,
           (String.eqb r "") eqn:Er; simpl; try lia;
    destruct (String.eqb p q) eqn:Epq, (String.eqb q r) eqn:Eqr,
             (String.eqb p r) eqn:Epr; simpl; try lia.
  all: rewrite ?String.eqb_eq, ?String.eqb_neq in *; subst; try congruence.
  all: repeat match goal with
              | |- context [string_gt ?x ?y] => destruct (string_gt x y) eqn:?
              end; try lia; intros _ _.
  all: try match goal with
           | G1 : string_gt ?x ?y = false, G2 : string_gt ?y ?x = false,
             N : ?x <> ?y |- _ =>
               rewrite (CompareFacts.string_gt_antisym x y N), G2 in G1;
               discriminate
           end.
  all: match goal with
       | G1 : string_gt ?x ?y = false, G2 : string_gt ?y ?z = false,
         G3 : string_gt ?x ?z = true |- _ =>
           rewrite (string_gt_trans _ _ _ G1 G2) in G3; discriminate
       end.
Qed.

Lemma IsNewer_inl (v1 v2 : string) (r : bool) :
  Version.IsNewer v1 v2 = inl r <->
  exists a b, Parse v1 = inl a /\ Parse v2 = inl b /\ r = (Compare a b >? 0).
Proof.
  unfold Version.IsNewer, CompareStrings. split.
  - destruct (Parse v1) as [a|]; [|discriminate].
    destruct (Parse v2) as [b|]; [|discriminate].
    intros [= <-]. eauto.
  - intros (a & b & -> & -> & ->). reflexivity.
Qed.

Lemma IsNewer_inr (v1 v2 : string) :
  (exists e, Version.IsNewer v1 v2 = inr e) <->
  (exists e, Parse v1 = inr e) \/ (exists e, Parse v2 = inr e).
Proof.
  unfold Version.IsNewer, CompareStrings. split.
  - destruct (Parse v1) as [a|e1]; [|eauto].
    destruct (Parse v2) as [b|e2]; [|eauto].
    intros [e [=]].
  - destruct (Parse v1) as [a|e1]; [|eauto].
    destruct (Parse v2) as [b|e2]; [|eauto].
    intros [[e [=]]|[e [=]]].
Qed.

Lemma Compare_strict_trans (a b c : Version) :
  Compare a b > 0 -> Compare b c > 0 -> Compare a c > 0.
Proof.
  intros Hab Hbc.
  assert (Hca : Compare c a <= 0).
  { apply (Compare_trans c b a); rewrite CompareFacts.Compare_swap; lia. }
  rewrite CompareFacts.Compare_swap in Hca.
  destruct (Z.eq_dec (Compare a c) 0) as [E|]; [|lia].
  rewrite (Compare_congr_l a c b E) in Hab.
  rewrite (CompareFacts.Compare_swap c b) in Hab. lia.
Qed.

End OrderFacts.

(** X1.  [Compare] is transitive: with [Compare a b <= 0] read as "a is not
    newer than b", the relation is a total preorder on versions (totality
    and reflexivity come with the antisymmetry of [Compare]). *)
Theorem compare_is_transitive (a b c : Version.Version) :
  Version.Compare a b <= 0 -> Version.Compare b c <= 0 ->
  Version.Compare a c <= 0.
Proof. apply OrderFacts.Compare_trans. Qed.

Lemma compare_is_transitive_witness :
  Version.Compare (Version.mkVersion 1 0 0 "alpha" "") (Version.mkVersion 1 0 0 "beta" "") <= 0 /\
  Version.Compare (Version.mkVersion 1 0 0 "beta" "") (Version.mkVersion 1 0 0 "" "") <= 0 /\
  Version.Compare (Version.mkVersion 1 0 0 "alpha" "") (Version.mkVersion 1 0 0 "" "") <= 0.
Proof.
  assert (H1 : Version.Compare (Version.mkVersion 1 0 0 "alpha" "")
                 (Version.mkVersion 1 0 0 "beta" "") <= 0)
    by (vm_compute; discriminate).
  assert (H2 : Version.Compare (Version.mkVersion 1 0 0 "beta" "")
                 (Version.mkVersion 1 0 0 "" "") <= 0)
    by (vm_compute; discriminate).
  split; [exact H1|]. split; [exact H2|].
  exact (compare_is_transitive _ _ _ H1 H2).
Defined.

(** X2.  [Compare] returns -1, 0 or 1; it returns 0 exactly for two
    versions with the same major, minor and patch numbers and the same
    pre-release text.  The build metadata is never looked at: replacing it
    leaves every comparison unchanged. *)
Theorem compare_zero_iff_same_precedence (a b : Version.Version) :
  (Version.Compare a b = -1 \/ Version.Compare a b = 0 \/
   Version.Compare a b = 1) /\
  (Version.Compare a b = 0 <->
   Version.Major a = Version.Major b /\ Version.Minor a = Version.Minor b /\
   Version.Patch a = Version.Patch b /\
   Version.PreRelease a = Version.PreRelease b) /\
  (forall build,
     Version.Compare
       (Version.mkVersion (Version.Major a) (Version.Minor a) (Version.Patch a)
          (Version.PreRelease a) build) b
     = Version.Compare a b).
Proof.
  split; [apply OrderFacts.Compare_range|].
  split; [apply OrderFacts.Compare_zero|].
  intros build. apply OrderFacts.Compare_congr_l.
  apply OrderFacts.Compare_zero. simpl. auto.
Qed.

Lemma compare_zero_iff_same_precedence_witness :
  Version.Compare (Version.mkVersion 1 2 3 "rc1" "linux")
    (Version.mkVersion 1 2 3 "rc1" "darwin") = 0.
Proof.
  destruct (compare_zero_iff_same_precedence
              (Version.mkVersion 1 2 3 "rc1" "linux")
              (Version.mkVersion 1 2 3 "rc1" "darwin")) as (_ & [_ H] & _).
  apply H. simpl. repeat split; reflexivity.
Defined.

(** X3.  The methods [IsNewer], [IsOlder] and [Equals] of a parsed version:
    [a.IsNewer(b)] is [b.IsOlder(a)], [Equals] is symmetric, and exactly one
    of the three holds of any two versions. *)
Theorem version_methods_are_dual (v other : Version.Version) :
  VersionMethods.IsNewer v other = VersionMethods.IsOlder other v /\
  VersionMethods.Equals v other = VersionMethods.Equals other v /\
  In (VersionMethods.IsNewer v other, VersionMethods.IsOlder v other,
      VersionMethods.Equals v other)
     [(true, false, false); (false, true, false); (false, false, true)].
Proof.
  unfold VersionMethods.IsNewer, VersionMethods.IsOlder, VersionMethods.Equals.
  rewrite (CompareFacts.Compare_swap other v).
  generalize (Version.Compare v other). intros z.
  split; [|split].
  - rewrite Z.gtb_ltb. destruct (Z.ltb_spec 0 z), (Z.ltb_spec (- z) 0);
      try reflexivity; lia.
  - destruct (Z.eqb_spec z 0), (Z.eqb_spec (- z) 0); try reflexivity; lia.
  - rewrite Z.gtb_ltb.
    destruct (Z.ltb_spec 0 z), (Z.ltb_spec z 0), (Z.eqb_spec z 0);
      simpl; auto; lia.
Qed.

(** X4.  [IsNewer] on version strings is a strict order where it answers
    [true]: it is asymmetric and transitive. *)
Theorem is_newer_is_a_strict_order (v1 v2 v3 : string) :
  (Version.IsNewer v1 v2 = inl true -> Version.IsNewer v2 v1 = inl false) /\
  (Version.IsNewer v1 v2 = inl true -> Version.IsNewer v2 v3 = inl true ->
   Version.IsNewer v1 v3 = inl true).
Proof.
  split.
  - intros H. apply OrderFacts.IsNewer_inl in H as (a & b & Ha & Hb & Hc).
    apply OrderFacts.IsNewer_inl. exists b, a. repeat split; trivial.
    symmetry in Hc. rewrite Z.gtb_ltb in *. apply Z.ltb_lt in Hc.
    symmetry. apply Z.ltb_ge. rewrite CompareFacts.Compare_swap. lia.
  - intros H12 H23.
    apply OrderFacts.IsNewer_inl in H12 as (a & b & Ha & Hb & Hab).
    apply OrderFacts.IsNewer_inl in H23 as (b' & c & Hb' & Hc & Hbc).
    rewrite Hb in Hb'. injection Hb' as <-.
    apply OrderFacts.IsNewer_inl. exists a, c. repeat split; trivial.
    symmetry in Hab, Hbc. rewrite Z.gtb_ltb in *.
    apply Z.ltb_lt in Hab, Hbc. symmetry. apply Z.ltb_lt.
    pose proof (OrderFacts.Compare_strict_trans a b c). lia.
Qed.

Lemma is_newer_is_a_strict_order_witness :
  Version.IsNewer "v2.0.0" "1.5.0-rc1" = inl true /\
  Version.IsNewer "1.5.0-rc1" "1.5.0-beta+b7" = inl true /\
  Version.IsNewer "1.5.0-rc1" "v2.0.0" = inl false /\
  Version.IsNewer "v2.0.0" "1.5.0-beta+b7" = inl true.
Proof.
  destruct (is_newer_is_a_strict_order "v2.0.0" "1.5.0-rc1" "1.5.0-beta+b7")
    as [Hasym Htrans].
  split; [reflexivity|]. split; [reflexivity|].
  split; [apply Hasym; reflexivity|apply Htrans; reflexivity].
Defined.

(** X5.  [CompareVersions] of both repositories: it fails exactly when one
    of the two strings is not a version, it is the same function for the
    HTTP and the GitHub repository, and it reports no update when the
    latest version has the precedence of the current one, in particular
    when they differ in build metadata only. *)
Theorem compare_versions_no_update_for_same_precedence
  (current latest : string) :
  HTTPCalls.CompareVersions current latest
    = GitHubCalls.CompareVersions current latest /\
  ((exists e, HTTPCalls.CompareVersions current latest = inr e) <->
   (exists e, Version.Parse current = inr e) \/
   (exists e, Version.Parse latest = inr e)) /\
  (forall a b,
     Version.Parse current = inl a -> Version.Parse latest = inl b ->
     Version.Compare a b = 0 ->
     HTTPCalls.CompareVersions current latest = inl false).
Proof.
  split; [reflexivity|]. unfold HTTPCalls.CompareVersions. split.
  - rewrite OrderFacts.IsNewer_inr. tauto.
  - intros a b Ha Hb E. apply OrderFacts.IsNewer_inl. exists b, a.
    repeat split; trivial.
    rewrite CompareFacts.Compare_swap, E. reflexivity.
Qed.

Lemma compare_versions_no_update_for_same_precedence_witness :
  HTTPCalls.CompareVersions "v1.2.3+linux" "1.2.3+darwin" = inl false.
Proof.
  destruct (compare_versions_no_update_for_same_precedence
              "v1.2.3+linux" "1.2.3+darwin") as (_ & _ & H).
  apply (H (Version.mkVersion 1 2 3 "" "linux")
           (Version.mkVersion 1 2 3 "" "darwin")); reflexivity.
Defined.

(** ** Digests are lower-case hexadecimal strings of a fixed length *)

Module DigestFacts.
Import Crypto Shape.

Lemma hex_digit_lower (d : Z) : 0 <= d < 16 -> is_lower_hex (hex_digit d) = true.
Proof.
  intros H.
  assert (E : d = 0 \/ d = 1 \/ d = 2 \/ d = 3 \/ d = 4 \/ d = 5 \/ d = 6 \/
              d = 7 \/ d = 8 \/ d = 9 \/ d = 10 \/ d = 11 \/ d = 12 \/
              d = 13 \/ d = 14 \/ d = 15) by lia.
  repeat destruct E as [E|E]; subst d; reflexivity.
Qed.

Lemma EncodeToString_lower (bs : list Z) :
  Forall is_byte bs -> all_lower_hex (EncodeToString bs) = true.
Proof.
  induction 1 as [|b bs Hb _ IH]; [reflexivity|].
  unfold is_byte in Hb. cbn [EncodeToString all_lower_hex].
  rewrite IH, !hex_digit_lower; [reflexivity| |].
  - apply Z.mod_pos_bound. lia.
  - split; [apply Z.div_pos; lia|apply Z.div_lt_upper_bound; lia].
Qed.

Lemma EncodeToString_length (bs : list Z) :
  String.length (EncodeToString bs) = (2 * List.length bs)%nat.
Proof. induction bs as [|b bs IH]; simpl; [reflexivity|rewrite IH; lia]. Qed.

Lemma be_bytes_bytes (n : nat) (x : Z) : Forall is_byte (be_bytes n x).
Proof.
  unfold be_bytes. apply List.Forall_forall. intros b Hb.
  apply in_map_iff in Hb as (i & <- & _). apply Z.mod_pos_bound. lia.
Qed.

Lemma be_bytes_length (n : nat) (x : Z) : List.length (be_bytes n x) = n.
Proof.
  unfold be_bytes.
  rewrite List.length_map, List.length_rev, List.length_seq. reflexivity.
Qed.

Lemma le_bytes_bytes (n : nat) (x : Z) : Forall is_byte (le_bytes n x).
Proof.
  unfold le_bytes. apply List.Forall_forall. intros b Hb.
  apply in_rev in Hb. revert b Hb. apply List.Forall_forall, be_bytes_bytes.
Qed.

Lemma le_bytes_length (n : nat) (x : Z) : List.length (le_bytes n x) = n.
Proof. unfold le_bytes. rewrite List.length_rev. apply be_bytes_length. Qed.

Section Words.
Variable to_bytes : Z -> list Z.
Variable n : nat.
Hypothesis to_bytes_bytes : forall x, Forall is_byte (to_bytes x).
Hypothesis to_bytes_length : forall x, List.length (to_bytes x) = n.

Lemma flat_map_bytes (st : list Z) : Forall is_byte (flat_map to_bytes st).
Proof.
  induction st as [|x st IH]; simpl; [constructor|].
  apply Forall_app. split; [apply to_bytes_bytes|exact IH].
Qed.

Lemma flat_map_words_length (st : list Z) :
  List.length (flat_map to_bytes st) = (n * List.length st)%nat.
Proof.
  induction st as [|x st IH]; simpl; [lia|].
  rewrite List.length_app, to_bytes_length, IH. lia.
Qed.

End Words.

Section State.
Context {B : Type}.
Variable k : nat.

Lemma fold_left_length (f : list Z -> B -> list Z) :
  (forall st x, List.length st = k -> List.length (f st x) = k) ->
  forall l st, List.length st = k -> List.length (fold_left f l st) = k.
Proof.
  intros Hf l. induction l as [|x l IH]; intros st Hst; simpl; [exact Hst|].
  apply IH, Hf, Hst.
Qed.

End State.

Lemma add_state_length (s t : list Z) (k : nat) :
  List.length s = k -> List.length t = k -> List.length (add_state s t) = k.
Proof.
  intros Hs Ht. unfold add_state.
  rewrite List.length_map, List.length_combine, Hs, Ht. lia.
Qed.

Lemma round256_length (st : list Z) (kw : Z * Z) :
  List.length st = 8%nat -> List.length (round256 st kw) = 8%nat.
Proof.
  intros H. do 9 (destruct st as [|? st]; try discriminate H). reflexivity.
Qed.

Lemma round1_length (st : list Z) (tw : nat * Z) :
  List.length st = 5%nat -> List.length (round1 st tw) = 5%nat.
Proof.
  intros H. do 6 (destruct st as [|? st]; try discriminate H).
  unfold round1.
  destruct (fst tw <? 20)%nat; [reflexivity|].
  destruct (fst tw <? 40)%nat; [reflexivity|].
  destruct (fst tw <? 60)%nat; reflexivity.
Qed.

Lemma round5_length (blk st : list Z) (i : nat) :
  List.length st = 4%nat -> List.length (round5 blk st i) = 4%nat.
Proof.
  intros H. do 5 (destruct st as [|? st]; try discriminate H).
  unfold round5.
  destruct (i <? 16)%nat; [reflexivity|].
  destruct (i <? 32)%nat; [reflexivity|].
  destruct (i <? 48)%nat; reflexivity.
Qed.

Lemma sha256_state_length (bl : list (list Z)) :
  List.length (fold_left compress256 bl H256) = 8%nat.
Proof.
  apply fold_left_length; [|reflexivity].
  intros st blk Hst. unfold compress256.
  apply add_state_length; [exact Hst|].
  apply fold_left_length; [|exact Hst]. apply round256_length.
Qed.

Lemma sha1_state_length (bl : list (list Z)) :
  List.length (fold_left compress1 bl H1) = 5%nat.
Proof.
  apply fold_left_length; [|reflexivity].
  intros st blk Hst. unfold compress1.
  apply add_state_length; [exact Hst|].
  apply fold_left_length; [|exact Hst]. apply round1_length.
Qed.

Lemma md5_state_length (bl : list (list Z)) :
  List.length (fold_left compress5 bl H5) = 4%nat.
Proof.
  apply fold_left_length; [|reflexivity].
  intros st blk Hst. unfold compress5.
  apply add_state_length; [exact Hst|].
  apply fold_left_length; [|exact Hst]. apply round5_length.
Qed.

Lemma sha256_digest (content : string) :
  let d := EncodeToString (sha256_Sum content) in
  String.length d = 64%nat /\ all_lower_hex d = true.
Proof.
  unfold sha256_Sum. split.
  - rewrite EncodeToString_length,
      (flat_map_words_length _ 4 (be_bytes_length 4)), sha256_state_length.
    reflexivity.
  - apply EncodeToString_lower, flat_map_bytes, be_bytes_bytes.
Qed.

Lemma sha1_digest (content : string) :
  let d := EncodeToString (sha1_Sum content) in
  String.length d = 40%nat /\ all_lower_hex d = true.
Proof.
  unfold sha1_Sum. split.
  - rewrite EncodeToString_length,
      (flat_map_words_length _ 4 (be_bytes_length 4)), sha1_state_length.
    reflexivity.
  - apply EncodeToString_lower, flat_map_bytes, be_bytes_bytes.
Qed.

Lemma md5_digest (content : string) :
  let d := EncodeToString (md5_Sum content) in
  String.length d = 32%nat /\ all_lower_hex d = true.
Proof.
  unfold md5_Sum. split.
  - rewrite EncodeToString_length,
      (flat_map_words_length _ 4 (le_bytes_length 4)), md5_state_length.
    reflexivity.
  - apply EncodeToString_lower, flat_map_bytes, le_bytes_bytes.
Qed.

End DigestFacts.
(** ** [TrimSpace] on a digest *)

Module TrimFacts.
Import Shape.

Lemma rev_app_rev_app (a : string) :
  forall b c, String.rev_app (String.rev_app a b) c = String.rev_app b (a ++ c).
Proof.
  induction a as [|x a IH]; intros b c; simpl; [reflexivity|].
  rewrite IH. reflexivity.
Qed.

Lemma append_empty (a : string) : a ++ "" = a.
Proof.
  induction a as [|x a IH]; [reflexivity|].
  change (String x (a ++ "") = String x a). f_equal. exact IH.
Qed.

Lemma rev_rev (a : string) : String.rev (String.rev a) = a.
Proof.
  unfold String.rev. rewrite rev_app_rev_app. exact (append_empty a).
Qed.

Lemma rev_app_lower_hex (a : string) :
  forall b, all_lower_hex (String.rev_app a b)
            = all_lower_hex a && all_lower_hex b.
Proof.
  induction a as [|x a IH]; intros b; simpl; [reflexivity|].
  rewrite IH. simpl. destruct (is_lower_hex x), (all_lower_hex a); reflexivity.
Qed.

Lemma rev_lower_hex (a : string) :
  all_lower_hex (String.rev a) = all_lower_hex a.
Proof.
  unfold String.rev. rewrite rev_app_lower_hex. simpl. apply andb_true_r.
Qed.

(** No white-space rune starts or ends with a hexadecimal digit. *)
Lemma drop_space_hex (c : ascii) (r : string) :
  is_lower_hex c = true ->
  drop_space spaces (String c r) = None /\
  drop_space (map String.rev spaces) (String c r) = None.
Proof.
  destruct c as [[] [] [] [] [] [] [] []]; intros H;
    try discriminate H; split; reflexivity.
Qed.

Lemma TrimLeft_hex (s : string) (fuel : nat) :
  all_lower_hex s = true ->
  TrimLeft spaces fuel s = s /\ TrimLeft (map String.rev spaces) fuel s = s.
Proof.
  intros H. destruct fuel as [|f]; [split; reflexivity|].
  destruct s as [|c r]; [split; reflexivity|].
  simpl in H. apply andb_true_iff in H as [Hc _].
  destruct (drop_space_hex c r Hc) as [E1 E2].
  cbn [TrimLeft]. rewrite E1, E2. split; reflexivity.
Qed.

Lemma TrimSpace_hex (s : string) : all_lower_hex s = true -> TrimSpace s = s.
Proof.
  intros H. unfold TrimSpace.
  rewrite (proj1 (TrimLeft_hex s _ H)).
  rewrite (proj2 (TrimLeft_hex (String.rev s) _
                    (eq_trans (rev_lower_hex s) H))).
  apply rev_rev.
Qed.

End TrimFacts.

(** X6.  The digest that [CalculateSHA256] returns is a string of 64
    lower-case hexadecimal digits, and [VerifySHA256] accepts it for the
    same file.  The two functions fail on the same files with the same
    error, whatever checksum is expected. *)
Theorem calculated_sha256_is_verified
  (filePath : string) (w : OS.world) (digest : string) :
  (Checksum.CalculateSHA256 filePath w = (digest, None) ->
   String.length digest = 64%nat /\ Shape.all_lower_hex digest = true /\
   Checksum.VerifySHA256 filePath digest w = (true, None)) /\
  (forall expected,
     snd (Checksum.VerifySHA256 filePath expected w)
     = snd (Checksum.CalculateSHA256 filePath w)).
Proof.
  unfold Checksum.CalculateSHA256, Checksum.VerifySHA256. split.
  - destruct (OS.Open filePath w); simpl; [|discriminate].
    destruct (OS.ReadAll filePath w) as [content|]; [|discriminate].
    intros [= <-].
    destruct (DigestFacts.sha256_digest content) as [Hl Hh].
    cbv zeta in Hl, Hh. split; [exact Hl|]. split; [exact Hh|].
    rewrite (TrimFacts.TrimSpace_hex _ Hh), String.eqb_refl. reflexivity.
  - intros expected. destruct (OS.Open filePath w); simpl; [|reflexivity].
    destruct (OS.ReadAll filePath w); reflexivity.
Qed.

Lemma calculated_sha256_is_verified_witness :
  Checksum.CalculateSHA256 "/tmp/testfile.txt" hello_world
  = ("dffd6021bb2bd5b0af676290809ec3a53191dd81c7f70a4b28688a362182986f", None) /\
  Checksum.VerifySHA256 "/tmp/testfile.txt"
    "dffd6021bb2bd5b0af676290809ec3a53191dd81c7f70a4b28688a362182986f"
    hello_world = (true, None).
Proof.
  assert (H : Checksum.CalculateSHA256 "/tmp/testfile.txt" hello_world
              = ("dffd6021bb2bd5b0af676290809ec3a53191dd81c7f70a4b28688a362182986f", None))
    by (vm_compute; reflexivity).
  split; [exact H|].
  destruct (calculated_sha256_is_verified "/tmp/testfile.txt" hello_world
              "dffd6021bb2bd5b0af676290809ec3a53191dd81c7f70a4b28688a362182986f")
    as [Hround _].
  apply Hround, H.
Defined.

(** ** The HTTP manifest repository *)

Module ManifestFacts.
Import Version Repository HTTPRepository.

Lemma latest_loop_member (rs : list httpRelease) :
  forall l r, latest_loop rs (Some l) = Some r -> r = l \/ In r rs.
Proof.
  induction rs as [|h rest IH]; intros l r; simpl.
  - intros [= <-]. auto.
  - destruct (Version.IsNewer (hVersion h) (hVersion l)) as [[]|];
      intros H; apply IH in H as [->|H]; auto.
Qed.

Lemma latest_loop_some (rs : list httpRelease) :
  forall l, exists r, latest_loop rs (Some l) = Some r.
Proof.
  induction rs as [|h rest IH]; intros l; simpl; [eauto|].
  destruct (Version.IsNewer (hVersion h) (hVersion l)) as [[]|]; apply IH.
Qed.

(** The invariant of the loop once the candidate is a version: it stays
    one, and nothing that was compared with it is newer. *)
Lemma latest_loop_max (rs : list httpRelease) :
  forall l vl r,
  Parse (hVersion l) = inl vl ->
  latest_loop rs (Some l) = Some r ->
  exists vr, Parse (hVersion r) = inl vr /\ Compare vl vr <= 0 /\
    forall h vh, In h rs -> Parse (hVersion h) = inl vh -> Compare vh vr <= 0.
Proof.
  induction rs as [|h rest IH]; intros l vl r Hl; simpl.
  - intros [= <-]. exists vl. split; [exact Hl|].
    split; [rewrite CompareFacts.Compare_refl; lia|]. intros h vh [].
  - unfold Version.IsNewer, CompareStrings. rewrite Hl.
    destruct (Parse (hVersion h)) as [vh|e] eqn:Hh.
    + destruct (Z.gtb_spec (Compare vh vl) 0) as [G|G]; intros H.
      * destruct (IH h vh r Hh H) as (vr & Hr & Hle & Hrest).
        exists vr. split; [exact Hr|]. split.
        { apply (OrderFacts.Compare_trans vl vh vr); [|exact Hle].
          rewrite CompareFacts.Compare_swap. lia. }
        intros h' vh' [<-|Hin] Hp; [|eauto].
        rewrite Hh in Hp. injection Hp as <-. exact Hle.
      * destruct (IH l vl r Hl H) as (vr & Hr & Hle & Hrest).
        exists vr. split; [exact Hr|]. split; [exact Hle|].
        intros h' vh' [<-|Hin] Hp; [|eauto].
        rewrite Hh in Hp. injection Hp as <-.
        apply (OrderFacts.Compare_trans vh vl vr); assumption.
    + intros H. destruct (IH l vl r Hl H) as (vr & Hr & Hle & Hrest).
      exists vr. split; [exact Hr|]. split; [exact Hle|].
      intros h' vh' [<-|Hin] Hp; [congruence|eauto].
Qed.

End ManifestFacts.

(** X7.  [GetLatestRelease] of the HTTP repository on a manifest that was
    fetched: it fails exactly on the empty manifest (the error "no valid
    release found" cannot occur), and what it returns is the conversion of
    an entry of the manifest. *)
Theorem http_latest_release_is_an_entry
  (releases : list HTTPRepository.httpRelease) :
  (HTTPRepository.GetLatestRelease (Some releases)
     = inr HTTPRepository.NoReleasesFound <-> releases = []) /\
  (releases <> [] ->
   exists h, In h releases /\
     HTTPRepository.GetLatestRelease (Some releases)
     = inl (HTTPRepository.convertHTTPRelease h)).
Proof.
  destruct releases as [|first rest].
  - split; [split; reflexivity|]. intros H. contradiction H. reflexivity.
  - assert (E : exists h, In h (first :: rest) /\
                HTTPRepository.GetLatestRelease (Some (first :: rest))
                = inl (HTTPRepository.convertHTTPRelease h)).
    { unfold HTTPRepository.GetLatestRelease.
      cbn [HTTPRepository.latest_loop].
      destruct (ManifestFacts.latest_loop_some rest first) as [r Hr].
      rewrite Hr. exists r. split; [|reflexivity].
      apply ManifestFacts.latest_loop_member in Hr as [->|Hr];
        [left|right]; trivial. }
    split; [|intros _; exact E].
    destruct E as (h & _ & ->). split; discriminate.
Qed.

Lemma http_latest_release_is_an_entry_witness :
  exists h,
    In h [manifest_entry "1.0.0"; manifest_entry "1.2.0"] /\
    HTTPRepository.GetLatestRelease
      (Some [manifest_entry "1.0.0"; manifest_entry "1.2.0"])
    = inl (HTTPRepository.convertHTTPRelease h).
Proof.
  destruct (http_latest_release_is_an_entry
              [manifest_entry "1.0.0"; manifest_entry "1.2.0"]) as [_ H].
  apply H. discriminate.
Defined.

(** X8.  When the first entry of the manifest is a version,
    [GetLatestRelease] returns a version, and no entry of the manifest that
    is a version is newer than it: entries that do not parse are skipped. *)
Theorem http_latest_release_is_newest
  (first : HTTPRepository.httpRelease) (rest : list HTTPRepository.httpRelease)
  (v : Version.Version) :
  Version.Parse (HTTPRepository.hVersion first) = inl v ->
  exists latest,
    HTTPRepository.GetLatestRelease (Some (first :: rest)) = inl latest /\
    (exists vl, Version.Parse (Repository.Version latest) = inl vl) /\
    forall h vh, In h (first :: rest) ->
      Version.Parse (HTTPRepository.hVersion h) = inl vh ->
      Version.IsNewer (HTTPRepository.hVersion h) (Repository.Version latest)
      = inl false.
Proof.
  intros Hv. unfold HTTPRepository.GetLatestRelease.
  cbn [HTTPRepository.latest_loop].
  destruct (ManifestFacts.latest_loop_some rest first) as [r Hr]. rewrite Hr.
  destruct (ManifestFacts.latest_loop_max rest first v r Hv Hr)
    as (vr & Hpr & Hle & Hrest).
  exists (HTTPRepository.convertHTTPRelease r). split; [reflexivity|].
  cbn [HTTPRepository.convertHTTPRelease Repository.Version].
  split; [eauto|]. intros h vh Hin Hh.
  apply OrderFacts.IsNewer_inl. exists vh, vr.
  split; [exact Hh|]. split; [exact Hpr|].
  assert (Compare_le : Version.Compare vh vr <= 0).
  { destruct Hin as [<-|Hin]; [|eauto].
    rewrite Hv in Hh. injection Hh as <-. exact Hle. }
  symmetry. rewrite Z.gtb_ltb. apply Z.ltb_ge. exact Compare_le.
Qed.

Lemma http_latest_release_is_newest_witness :
  exists latest,
    HTTPRepository.GetLatestRelease
      (Some [manifest_entry "1.0.0"; manifest_entry "nightly";
             manifest_entry "1.2.0"; manifest_entry "1.1.0"]) = inl latest /\
    Version.IsNewer "1.2.0" (Repository.Version latest) = inl false.
Proof.
  destruct (http_latest_release_is_newest (manifest_entry "1.0.0")
              [manifest_entry "nightly"; manifest_entry "1.2.0";
               manifest_entry "1.1.0"]
              (Version.mkVersion 1 0 0 "" "") eq_refl)
    as (latest & Hl & _ & Hmax).
  exists latest. split; [exact Hl|].
  apply (Hmax (manifest_entry "1.2.0") (Version.mkVersion 1 2 0 "" ""));
    [simpl; auto|reflexivity].
Defined.

(** X9.  [GetRelease] of the HTTP repository looks the version string up as
    it is written: the release it returns belongs to an entry with exactly
    that version string, and it reports "not found" exactly when no entry
    has it. *)
Theorem http_get_release_is_exact_lookup
  (releases : list HTTPRepository.httpRelease) (version : string) :
  (forall r,
     HTTPRepository.GetRelease (Some releases) version = inl r ->
     Repository.Version r = version /\
     exists h, In h releases /\ HTTPRepository.hVersion h = version /\
               r = HTTPRepository.convertHTTPRelease h) /\
  (HTTPRepository.GetRelease (Some releases) version
     = inr (HTTPRepository.ReleaseVersionNotFound version) <->
   forall h, In h releases -> HTTPRepository.hVersion h <> version).
Proof.
  unfold HTTPRepository.GetRelease.
  destruct (List.find _ releases) as [h|] eqn:F.
  - apply List.find_some in F as [Hin Heq]. apply String.eqb_eq in Heq.
    split.
    + intros r [= <-]. split; [exact Heq|]. exists h. auto.
    + split; [discriminate|]. intros H. destruct (H h Hin Heq).
  - split; [discriminate|]. split; [|reflexivity].
    intros _ h Hin. apply String.eqb_neq.
    exact (List.find_none _ _ F h Hin).
Qed.

Lemma http_get_release_is_exact_lookup_witness :
  HTTPRepository.GetRelease (Some [manifest_entry "1.0.0"]) "v1.0.0"
  = inr (HTTPRepository.ReleaseVersionNotFound "v1.0.0").
Proof.
  destruct (http_get_release_is_exact_lookup [manifest_entry "1.0.0"] "v1.0.0")
    as [_ [_ H]].
  apply H. intros h [<-|[]]. discriminate.
Defined.

(** ** Checksums of the manifest and the download *)

Module ChecksumFacts.
Import Repository HTTPRepository.

Lemma eqb_empty_false (d : string) : d <> "" -> String.eqb d "" = false.
Proof. intros H. apply String.eqb_neq. exact H. Qed.

Lemma verifyChecksum_digest (filePath content alg : string)
  (sum : string -> list Z) (w : OS.world) :
  OS.Open filePath w = true -> OS.ReadAll filePath w = Some content ->
  In (alg, sum) [("sha256", Crypto.sha256_Sum); ("sha1", Crypto.sha1_Sum);
                 ("md5", Crypto.md5_Sum)] ->
  Crypto.EncodeToString (sum content) <> "" ->
  forall checksum,
    cut_at_colon checksum = (alg, Crypto.EncodeToString (sum content)) ->
    verifyChecksum filePath checksum w = None.
Proof.
  intros Hopen Hread Hin Hne checksum Hcut.
  unfold verifyChecksum. rewrite Hopen, Hcut, Hread. cbn [negb].
  remember (Crypto.EncodeToString (sum content)) as d eqn:Hd.
  rewrite (eqb_empty_false d Hne).
  destruct Hin as [E|[E|[E|[]]]]; injection E as <- <-;
    simpl; rewrite <- Hd, String.eqb_refl; reflexivity.
Qed.

Lemma digest_nonempty (d : string) (n : nat) : String.length d = S n -> d <> "".
Proof. intros H ->. discriminate H. Qed.

(** The errors that [verifyChecksum] keeps for a checksum that is not
    well formed. *)
Lemma verifyChecksum_selected (filePath alg d : string) (w : OS.world)
  (e : Error) :
  In alg ["sha256"; "sha1"; "md5"] -> d <> "" ->
  forall checksum, cut_at_colon checksum = (alg, d) ->
  verifyChecksum filePath checksum w = Some e ->
  e = ErrOpeningFile \/ e = ErrCalculatingHash alg \/
  exists actual, e = HashMismatch alg d actual.
Proof.
  intros Hin Hne checksum Hcut. unfold verifyChecksum. rewrite Hcut.
  destruct (OS.Open filePath w); cbn [negb]; [|intros [= <-]; auto].
  rewrite (eqb_empty_false d Hne).
  destruct (OS.ReadAll filePath w) as [content|].
  - destruct Hin as [<-|[<-|[<-|[]]]]; simpl;
      match goal with
      | |- context [String.eqb ?x d] => destruct (String.eqb x d)
      end; simpl; intros [= <-]; eauto.
  - destruct Hin as [<-|[<-|[<-|[]]]]; simpl; intros [= <-]; auto.
Qed.

End ChecksumFacts.

(** X10.  [verifyChecksum] accepts the digest of the file: for a file that
    can be opened and read, the name of each of the three algorithms, a
    colon and the hexadecimal digest of the content pass.  So does, with
    the prefix [sha256:], what [CalculateSHA256] returns for the file. *)
Theorem verify_checksum_accepts_the_digest
  (filePath content : string) (w : OS.world) :
  OS.Open filePath w = true -> OS.ReadAll filePath w = Some content ->
  HTTPRepository.verifyChecksum filePath
    ("sha256:" ++ Crypto.EncodeToString (Crypto.sha256_Sum content)) w = None /\
  HTTPRepository.verifyChecksum filePath
    ("sha1:" ++ Crypto.EncodeToString (Crypto.sha1_Sum content)) w = None /\
  HTTPRepository.verifyChecksum filePath
    ("md5:" ++ Crypto.EncodeToString (Crypto.md5_Sum content)) w = None /\
  HTTPRepository.verifyChecksum filePath
    ("sha256:" ++ fst (Checksum.CalculateSHA256 filePath w)) w = None.
Proof.
  intros Hopen Hread.
  assert (H256 : HTTPRepository.verifyChecksum filePath
            ("sha256:" ++ Crypto.EncodeToString (Crypto.sha256_Sum content)) w
          = None).
  { apply (ChecksumFacts.verifyChecksum_digest filePath content "sha256"
             Crypto.sha256_Sum w Hopen Hread); [simpl; auto| |reflexivity].
    exact (ChecksumFacts.digest_nonempty _ _
             (proj1 (DigestFacts.sha256_digest content))). }
  split; [exact H256|]. split; [|split].
  - apply (ChecksumFacts.verifyChecksum_digest filePath content "sha1"
             Crypto.sha1_Sum w Hopen Hread); [simpl; auto| |reflexivity].
    exact (ChecksumFacts.digest_nonempty _ _
             (proj1 (DigestFacts.sha1_digest content))).
  - apply (ChecksumFacts.verifyChecksum_digest filePath content "md5"
             Crypto.md5_Sum w Hopen Hread); [simpl; auto| |reflexivity].
    exact (ChecksumFacts.digest_nonempty _ _
             (proj1 (DigestFacts.md5_digest content))).
  - unfold Checksum.CalculateSHA256. rewrite Hopen, Hread. exact H256.
Qed.

Lemma verify_checksum_accepts_the_digest_witness :
  HTTPRepository.verifyChecksum "/dl/abc.bin"
    ("sha1:" ++ Crypto.EncodeToString (Crypto.sha1_Sum "abc")) abc_file = None.
Proof.
  destruct (verify_checksum_accepts_the_digest "/dl/abc.bin" "abc" abc_file)
    as (_ & H & _); [reflexivity|reflexivity|exact H].
Defined.

(** X11.  The checksum that [convertHTTPRelease] selects from a manifest
    entry is empty exactly when the entry has no digest at all; otherwise
    [verifyChecksum] never rejects it as malformed or as of an unsupported
    algorithm: it can only fail to open or read the file, or find a
    different digest. *)
Theorem selected_checksum_is_well_formed
  (httpRel : HTTPRepository.httpRelease) (filePath : string) (w : OS.world) :
  let checksum := Repository.Checksum (HTTPRepository.convertHTTPRelease httpRel) in
  (checksum = "" <->
   HTTPRepository.hSHA256 httpRel = "" /\ HTTPRepository.hSHA1 httpRel = "" /\
   HTTPRepository.hMD5 httpRel = "") /\
  (checksum <> "" ->
   forall e, HTTPRepository.verifyChecksum filePath checksum w = Some e ->
     e = HTTPRepository.ErrOpeningFile \/
     (exists alg, e = HTTPRepository.ErrCalculatingHash alg) \/
     (exists alg expected actual,
        e = HTTPRepository.HashMismatch alg expected actual)).
Proof.
  cbn [HTTPRepository.convertHTTPRelease Repository.Checksum].
  unfold HTTPRepository.selectChecksum.
  assert (G : forall alg d e,
    In alg ["sha256"; "sha1"; "md5"] -> d <> "" ->
    forall checksum, HTTPRepository.cut_at_colon checksum = (alg, d) ->
    HTTPRepository.verifyChecksum filePath checksum w = Some e ->
    e = HTTPRepository.ErrOpeningFile \/
    (exists alg, e = HTTPRepository.ErrCalculatingHash alg) \/
    (exists alg expected actual,
       e = HTTPRepository.HashMismatch alg expected actual)).
  { intros alg d e Hin Hne checksum Hcut He.
    destruct (ChecksumFacts.verifyChecksum_selected filePath alg d w e Hin Hne
                checksum Hcut He) as [->|[->|[actual ->]]]; eauto 6. }
  destruct (String.eqb_spec (HTTPRepository.hSHA256 httpRel) "") as [E1|N1];
    cbn [negb fst].
  2:{ split; [split; [discriminate|intros [? _]; contradiction]|].
      intros _ e. apply (G "sha256" (HTTPRepository.hSHA256 httpRel) e); [simpl; auto|exact N1|reflexivity]. }
  destruct (String.eqb_spec (HTTPRepository.hSHA1 httpRel) "") as [E2|N2];
    cbn [negb fst].
  2:{ split; [split; [discriminate|intros (_ & ? & _); contradiction]|].
      intros _ e. apply (G "sha1" (HTTPRepository.hSHA1 httpRel) e); [simpl; auto|exact N2|reflexivity]. }
  destruct (String.eqb_spec (HTTPRepository.hMD5 httpRel) "") as [E3|N3];
    cbn [negb fst].
  2:{ split; [split; [discriminate|intros (_ & _ & ?); contradiction]|].
      intros _ e. apply (G "md5" (HTTPRepository.hMD5 httpRel) e); [simpl; auto|exact N3|reflexivity]. }
  split; [split; auto|]. intros H. contradiction H. reflexivity.
Qed.

Lemma selected_checksum_is_well_formed_witness :
  Repository.Checksum
    (HTTPRepository.convertHTTPRelease
       (HTTPRepository.mkHttpRelease "1.0.0" "http://example.com/app" "" "" ""))
  = "".
Proof.
  destruct (selected_checksum_is_well_formed
              (HTTPRepository.mkHttpRelease "1.0.0" "http://example.com/app"
                 "" "" "") "/dl/app" empty_download_dir) as [[_ H] _].
  apply H. repeat split; reflexivity.
Defined.

(** ** Downloads *)

Module StoreFacts.
Import OS.




End StoreFacts.

Module HTTPDownloadFacts.
Import OS Repository HTTPRepository.





End HTTPDownloadFacts.







(** ** The GitHub repository *)

Module GitHubFacts.
Import Repository GitHubRepository GitHubCalls.

(** The requests that the two lookups send, echoed by a server that
    answers 404 with the URL it was asked for. *)
Example github_lookup_urls :
  let g := mkGitHubRepository "owner" "repo" "" "" in
  let echo := fun req => ApiResponse 404 (reqURL req) None in
  (GetLatestRelease g echo, GetRelease g "1.0.0" echo, GetRelease g "v1.0.0" echo)
  = (inr (APIReturnedStatus 404
            "https://api.github.com/repos/owner/repo/releases/latest"),
     inr (APIReturnedStatus 404
            "https://api.github.com/repos/owner/repo/releases/tags/v1.0.0"),
     inr (APIReturnedStatus 404
            "https://api.github.com/repos/owner/repo/releases/tags/v1.0.0")).
Proof. reflexivity. Qed.

Example github_request_headers :
  (apiHeaders (mkGitHubRepository "owner" "repo" "" ""),
   downloadHeaders (mkGitHubRepository "owner" "repo" "secret" ""))
  = ([("User-Agent", "guppy-updater");
      ("Accept", "application/vnd.github.v3+json")],
     [("User-Agent", "guppy-updater"); ("Accept", "application/octet-stream");
      ("Authorization", "token secret")]).
Proof. reflexivity. Qed.

Lemma api_url_nonempty (g : GitHubRepository) (id : Z) :
  "https://api.github.com/repos/" ++ Owner g ++ "/" ++ Repo g
    ++ "/releases/assets/" ++ Strconv.FormatInt id <> "".
Proof. discriminate. Qed.

(** What a successful conversion with an asset name returns. *)
Lemma convert_named (g : GitHubRepository) (ghRelease : githubRelease)
  (r : Release) :
  AssetName g <> "" ->
  convertGitHubRelease g ghRelease = inl r ->
  exists a, List.find (fun a => String.eqb (Name a) (AssetName g))
              (Assets ghRelease) = Some a /\
    BrowserDownloadURL a <> "" /\
    r = mkRelease (TagName ghRelease)
          (if negb (String.eqb (Token g) "") && negb (ID a =? 0)
           then "https://api.github.com/repos/" ++ Owner g ++ "/" ++ Repo g
                ++ "/releases/assets/" ++ Strconv.FormatInt (ID a)
           else BrowserDownloadURL a)
          "" (PublishedAt ghRelease) (Name a) (ID a).
Proof.
  intros Hname. unfold convertGitHubRelease, find_asset.
  destruct (Assets ghRelease) as [|first rest] eqn:EA; [discriminate|].
  rewrite (proj2 (String.eqb_neq _ _) Hname). cbn [negb andb].
  destruct (List.find _ (first :: rest)) as [a|]; [|discriminate].
  destruct (String.eqb_spec (BrowserDownloadURL a) "") as [E|N];
    [discriminate|].
  intros [= <-]. exists a. auto.
Qed.

Lemma convert_first (g : GitHubRepository) (ghRelease : githubRelease) :
  AssetName g = "" ->
  convertGitHubRelease g ghRelease =
    match Assets ghRelease with
    | [] => inr ReleaseHasNoAssets
    | a :: _ =>
        inl (mkRelease (TagName ghRelease)
               (if negb (String.eqb (Token g) "") && negb (ID a =? 0)
                then "https://api.github.com/repos/" ++ Owner g ++ "/" ++ Repo g
                     ++ "/releases/assets/" ++ Strconv.FormatInt (ID a)
                else BrowserDownloadURL a)
               "" (PublishedAt ghRelease) (Name a) (ID a))
    end.
Proof.
  intros E. unfold convertGitHubRelease. rewrite E.
  destruct (Assets ghRelease); reflexivity.
Qed.

Lemma convert_shape (g : GitHubRepository) (ghRelease : githubRelease)
  (r : Release) :
  convertGitHubRelease g ghRelease = inl r ->
  Version r = TagName ghRelease /\ Checksum r = "" /\ Assets ghRelease <> [].
Proof.
  destruct (String.eqb_spec (AssetName g) "") as [E|N].
  - rewrite (convert_first g ghRelease E).
    destruct (Assets ghRelease); [discriminate|].
    intros [= <-]. repeat split. discriminate.
  - intros H. destruct (convert_named g ghRelease r N H) as (a & F & _ & ->).
    repeat split. intros E. rewrite E in F. discriminate.
Qed.

Lemma fetchRelease_ok (g : GitHubRepository) (url : string)
  (server : request -> apiOutcome) (r : Release) :
  fetchRelease g url server = inl r ->
  exists body j,
    server (mkRequest url (apiHeaders g)) = ApiResponse 200 body (Some j) /\
    convertGitHubRelease g (Decode j) = inl r.
Proof.
  unfold fetchRelease.
  destruct (server _) as [| |status body [j|]]; try discriminate.
  - destruct (Z.eqb_spec status 200) as [->|]; [|discriminate]. cbn [negb].
    destruct (convertGitHubRelease g (Decode j)) as [r'|] eqn:Hc;
      [|discriminate].
    intros [= <-]. exists body, j. split; [reflexivity|exact Hc].
  - destruct (negb (status =? 200)); discriminate.
Qed.

Lemma normalised_tag (version : string) :
  (if negb (HasPrefix version "v") then "v" ++ version else version)
  = "v" ++ TrimPrefix version "v".
Proof.
  unfold HasPrefix, TrimPrefix. destruct version as [|c rest]; [reflexivity|].
  cbn [strip_prefix]. destruct (Ascii.eqb_spec "v" c) as [<-|N]; reflexivity.
Qed.

Lemma fetched_shape (g : GitHubRepository) (url : string)
  (server : request -> apiOutcome) (r : Release) :
  fetchRelease g url server = inl r ->
  (exists body j,
     server (mkRequest url (apiHeaders g)) = ApiResponse 200 body (Some j) /\
     Version r = json_tag_name j /\ json_assets j <> []) /\
  Checksum r = "" /\
  (AssetName g <> "" ->
   forall dest download w,
     fst (Download g r dest download w) <> Some NoDownloadURL).
Proof.
  intros H. apply fetchRelease_ok in H as (body & j & Hs & Hc).
  destruct (convert_shape _ _ _ Hc) as (Hv & Hk & Ha).
  split; [|split; [exact Hk|]].
  - exists body, j. split; [exact Hs|]. split; [exact Hv|].
    intros E. apply Ha. cbn [Decode Assets]. rewrite E. reflexivity.
  - intros Hname dest download w.
    destruct (convert_named _ _ _ Hname Hc) as (a & _ & Hurl & ->).
    unfold Download. cbn [DownloadURL].
    set (u := if negb (String.eqb (Token g) "") && negb (ID a =? 0)
              then _ else _).
    assert (Hu : u <> "").
    { unfold u. destruct (negb (String.eqb (Token g) "") && negb (ID a =? 0));
        [apply api_url_nonempty|exact Hurl]. }
    rewrite (proj2 (String.eqb_neq _ _) Hu).
    destruct (download _) as [| |status body' complete];
      cbn [fst]; try discriminate.
    destruct (negb (status =? 200)); cbn [fst]; [discriminate|].
    destruct (OS.MkdirAll _ _ _); cbn [fst]; [|discriminate].
    destruct (OS.OpenFile _ _ _); cbn [fst]; [|discriminate].
    destruct (OS.Write _ _ _); cbn [fst]; [|discriminate].
    destruct (negb complete); cbn [fst]; discriminate.
Qed.



End GitHubFacts.

(** X15.  [convertGitHubRelease] with an asset name: the release it returns
    is made from the first asset of that name, carries that name as its
    file name and never has an empty download URL; with a token and a
    non-zero asset id the URL is that of the asset API and the browser URL
    is not used.  The conversion fails when there is no such asset. *)
Theorem github_named_asset_is_selected
  (g : GitHubRepository.GitHubRepository)
  (ghRelease : GitHubRepository.githubRelease) :
  GitHubRepository.AssetName g <> "" ->
  (forall r,
     GitHubRepository.convertGitHubRelease g ghRelease = inl r ->
     Repository.FileName r = GitHubRepository.AssetName g /\
     Repository.DownloadURL r <> "" /\
     exists a, In a (GitHubRepository.Assets ghRelease) /\
       GitHubRepository.Name a = GitHubRepository.AssetName g /\
       Repository.AssetID r = GitHubRepository.ID a /\
       Repository.DownloadURL r =
         if negb (String.eqb (GitHubRepository.Token g) "")
            && negb (GitHubRepository.ID a =? 0)
         then "https://api.github.com/repos/" ++ GitHubRepository.Owner g
              ++ "/" ++ GitHubRepository.Repo g ++ "/releases/assets/"
              ++ Strconv.FormatInt (GitHubRepository.ID a)
         else GitHubRepository.BrowserDownloadURL a) /\
  ((forall a, In a (GitHubRepository.Assets ghRelease) ->
      GitHubRepository.Name a <> GitHubRepository.AssetName g) ->
   exists e, GitHubRepository.convertGitHubRelease g ghRelease = inr e).
Proof.
  intros Hname. split.
  - intros r H.
    destruct (GitHubFacts.convert_named g ghRelease r Hname H)
      as (a & F & Hurl & ->).
    apply List.find_some in F as [Hin Heq]. apply String.eqb_eq in Heq.
    cbn [Repository.FileName Repository.DownloadURL Repository.AssetID].
    split; [exact Heq|]. split.
    + destruct (negb (String.eqb (GitHubRepository.Token g) "")
                && negb (GitHubRepository.ID a =? 0));
        [apply GitHubFacts.api_url_nonempty|exact Hurl].
    + exists a. auto.
  - intros Hnone.
    destruct (GitHubRepository.convertGitHubRelease g ghRelease) as [r|e] eqn:H;
      [|eauto].
    destruct (GitHubFacts.convert_named g ghRelease r Hname H) as (a & F & _).
    apply List.find_some in F as [Hin Heq]. apply String.eqb_eq in Heq.
    destruct (Hnone a Hin Heq).
Qed.

Lemma github_named_asset_is_selected_witness :
  Repository.FileName
    (Repository.mkRelease "v1.0.0"
       "https://api.github.com/repos/owner/repo/releases/assets/124" "" 0
       "app-linux" 124) = "app-linux".
Proof.
  destruct (github_named_asset_is_selected
              (GitHubRepository.mkGitHubRepository "owner" "repo" "secret"
                 "app-linux")
              (GitHubRepository.mkGithubRelease "v1.0.0" "" 0
                 [GitHubRepository.mkAsset 123 "app-darwin" "https://example.com/d";
                  GitHubRepository.mkAsset 124 "app-linux" "https://example.com/l"]))
    as [H _]; [discriminate|].
  destruct (H (Repository.mkRelease "v1.0.0"
                 "https://api.github.com/repos/owner/repo/releases/assets/124"
                 "" 0 "app-linux" 124)) as [E _]; [vm_compute; reflexivity|].
  exact E.
Defined.

(** X16.  [GetRelease] of the GitHub repository asks for the tag with one
    leading [v]: a version written with the [v] and the same version
    written without it lead to the same request and the same answer. *)
Theorem github_get_release_normalises_tag
  (g : GitHubRepository.GitHubRepository) (version : string)
  (server : GitHubCalls.request -> GitHubCalls.apiOutcome) :
  GitHubCalls.GetRelease g version server
  = GitHubCalls.fetchRelease g
      ("https://api.github.com/repos/" ++ GitHubRepository.Owner g ++ "/"
       ++ GitHubRepository.Repo g ++ "/releases/tags/v"
       ++ TrimPrefix version "v") server /\
  GitHubCalls.GetRelease g ("v" ++ TrimPrefix version "v") server
  = GitHubCalls.GetRelease g version server.
Proof.
  assert (E : forall v,
    GitHubCalls.GetRelease g v server
    = GitHubCalls.fetchRelease g
        ("https://api.github.com/repos/" ++ GitHubRepository.Owner g ++ "/"
         ++ GitHubRepository.Repo g ++ "/releases/tags/v"
         ++ TrimPrefix v "v") server).
  { intros v. unfold GitHubCalls.GetRelease. cbv zeta.
    rewrite GitHubFacts.normalised_tag. reflexivity. }
  split; [apply E|]. rewrite !E. reflexivity.
Qed.

(** X17.  A release that [GetLatestRelease] or [GetRelease] of the GitHub
    repository returns comes from an answer of status 200 whose body
    decodes: its version is the tag of the answer, whatever was asked for,
    and its checksum is empty.  With an asset name set, [Download] never
    refuses it for a missing download URL. *)
Theorem github_fetched_release_comes_from_the_answer
  (g : GitHubRepository.GitHubRepository) (version : string)
  (server : GitHubCalls.request -> GitHubCalls.apiOutcome)
  (r : Repository.Release) :
  GitHubCalls.GetLatestRelease g server = inl r \/
  GitHubCalls.GetRelease g version server = inl r ->
  (exists url body j,
     server (GitHubCalls.mkRequest url (GitHubCalls.apiHeaders g))
       = GitHubCalls.ApiResponse 200 body (Some j) /\
     Repository.Version r = GitHubRepository.json_tag_name j /\
     GitHubRepository.json_assets j <> []) /\
  Repository.Checksum r = "" /\
  (GitHubRepository.AssetName g <> "" ->
   forall dest download w,
     fst (GitHubCalls.Download g r dest download w)
     <> Some GitHubCalls.NoDownloadURL).
Proof.
  unfold GitHubCalls.GetLatestRelease, GitHubCalls.GetRelease.
  intros [H|H]; apply GitHubFacts.fetched_shape in H as ((b & j & H) & Hc & Hd);
    (split; [eauto|split; assumption]).
Qed.

Lemma github_fetched_release_comes_from_the_answer_witness :
  let g := GitHubRepository.mkGitHubRepository "owner" "repo" "" "" in
  let server := fun _ : GitHubCalls.request =>
                  GitHubCalls.ApiResponse 200 "{}" (Some digest_response) in
  GitHubCalls.GetRelease g "1.0.0" server
  = inl (Repository.mkRelease "v1.0.0" "https://example.com/binary" "" 0
           "test-binary" 123) /\
  Repository.Checksum
    (Repository.mkRelease "v1.0.0" "https://example.com/binary" "" 0
       "test-binary" 123) = "".
Proof.
  intros g server.
  assert (H : GitHubCalls.GetRelease g "1.0.0" server
              = inl (Repository.mkRelease "v1.0.0" "https://example.com/binary"
                       "" 0 "test-binary" 123)) by reflexivity.
  split; [exact H|].
  destruct (github_fetched_release_comes_from_the_answer g "1.0.0" server _
              (or_intror H)) as (_ & E & _).
  exact E.
Defined.



(** ** The binary applier *)

Module ReplaceFacts.
Import OS BinaryApplier Shape.
















End ReplaceFacts.





(** ** The archive applier: nothing is removed, nothing is rolled back *)

Module KeepFacts.
Import OS ArchiveApplier Shape.

Lemma node_kept_refl (n : option node) : node_kept n n.
Proof. destruct n as [[m c|m|t]|]; simpl; eauto. Qed.

Lemma node_kept_trans (a b c : option node) :
  node_kept a b -> node_kept b c -> node_kept a c.
Proof.
  destruct a as [[m x|m|t]|]; simpl; trivial.
  - intros (m' & x' & ->). simpl. trivial.
  - intros ->. simpl. trivial.
  - intros ->. simpl. trivial.
Qed.

Lemma keeps_refl (w : world) : keeps w w.
Proof. intros p. apply node_kept_refl. Qed.

Lemma keeps_trans (w1 w2 w3 : world) : keeps w1 w2 -> keeps w2 w3 -> keeps w1 w3.
Proof. intros H1 H2 p. exact (node_kept_trans _ _ _ (H1 p) (H2 p)). Qed.

Lemma keeps_MkdirAll (path : string) (perm : Z) (w w' : world) :
  MkdirAll path perm w = Some w' -> keeps w w'.
Proof.
  intros H p. destruct (OSFacts.MkdirAll_spec _ _ _ _ H) as [_ F].
  destruct (F p) as [->|[-> _]]; [apply node_kept_refl|exact I].
Qed.

Lemma keeps_OpenFile (name : string) (perm : Z) (w w' : world) :
  OpenFile name perm w = Some w' -> keeps w w'.
Proof.
  intros H p. apply OSFacts.OpenFile_spec in H as (_ & [m F] & Hold).
  rewrite F. destruct (decide (p = name)) as [->|Hne].
  - rewrite lookup_insert_eq.
    destruct Hold as [->|(m0 & c0 & ->)]; simpl; eauto.
  - rewrite lookup_insert_ne by congruence. apply node_kept_refl.
Qed.

Lemma keeps_Write (name content : string) (w w' : world) :
  Write name content w = Some w' -> keeps w w'.
Proof.
  intros H p. apply OSFacts.Write_spec in H as (_ & m & c & Hold & F).
  rewrite F. destruct (decide (p = name)) as [->|Hne].
  - rewrite lookup_insert_eq, Hold. simpl. eauto.
  - rewrite lookup_insert_ne by congruence. apply node_kept_refl.
Qed.

(** Both loops are made of the three calls, so they keep what the calls
    keep: any relation on states of the tree that is reflexive and
    transitive and holds of the three calls holds of an extraction. *)
Section Extraction.
Variable R : world -> world -> Prop.
Hypothesis R_refl : forall w, R w w.
Hypothesis R_trans : forall w1 w2 w3, R w1 w2 -> R w2 w3 -> R w1 w3.
Hypothesis R_MkdirAll :
  forall path perm w w', MkdirAll path perm w = Some w' -> R w w'.
Hypothesis R_OpenFile :
  forall name perm w w', OpenFile name perm w = Some w' -> R w w'.
Hypothesis R_Write :
  forall name content w w', Write name content w = Some w' -> R w w'.

Lemma extractZipFile_rel (file : zipFile) (path : string) (w w' : world)
  (r : option ApplyError) :
  extractZipFile file path w = (r, w') -> R w w'.
Proof.
  unfold extractZipFile.
  destruct (negb (zOpens file)); [intros [= _ <-]; apply R_refl|].
  destruct (OpenFile path (zMode file) w) as [w1|] eqn:E1;
    [|intros [= _ <-]; apply R_refl].
  destruct (Write path (zContent file) w1) as [w2|] eqn:E2.
  2:{ intros [= _ <-]. exact (R_OpenFile _ _ _ _ E1). }
  destruct (zReads file); intros [= _ <-];
    exact (R_trans _ _ _ (R_OpenFile _ _ _ _ E1) (R_Write _ _ _ _ E2)).
Qed.

Lemma extractZip_loop_rel (dest : string) (files : list zipFile) :
  forall (w w' : world) (r : option ApplyError),
  extractZip_loop dest files w = (r, w') -> R w w'.
Proof.
  induction files as [|file rest IH]; intros w w' r; simpl.
  { intros [= _ <-]. apply R_refl. }
  destruct (negb (HasPrefix _ _)); [intros [= _ <-]; apply R_refl|].
  destruct (IsDir (zMode file)).
  - destruct (MkdirAll _ _ w) as [w1|] eqn:E1;
      [|intros [= _ <-]; apply R_refl].
    intros H. exact (R_trans _ _ _ (R_MkdirAll _ _ _ _ E1) (IH _ _ _ H)).
  - destruct (MkdirAll _ _ w) as [w1|] eqn:E1;
      [|intros [= _ <-]; apply R_refl].
    pose proof (R_MkdirAll _ _ _ _ E1) as G1.
    destruct (extractZipFile file _ w1) as [[e|] w2] eqn:E2.
    + intros [= _ <-].
      exact (R_trans _ _ _ G1 (extractZipFile_rel _ _ _ _ _ E2)).
    + intros H. apply (R_trans _ w2); [|exact (IH _ _ _ H)].
      exact (R_trans _ _ _ G1 (extractZipFile_rel _ _ _ _ _ E2)).
Qed.

Lemma extractTarGz_loop_rel (dest : string) (entries : list tarEntry)
  (eof : bool) :
  forall (w w' : world) (r : option ApplyError),
  extractTarGz_loop dest entries eof w = (r, w') -> R w w'.
Proof.
  induction entries as [|h rest IH]; intros w w' r; simpl.
  { destruct eof; intros [= _ <-]; apply R_refl. }
  destruct (negb (HasPrefix _ _)); [intros [= _ <-]; apply R_refl|].
  destruct (Ascii.eqb (tTypeflag h) TypeDir).
  { destruct (MkdirAll _ _ w) as [w1|] eqn:E1;
      [|intros [= _ <-]; apply R_refl].
    intros H. exact (R_trans _ _ _ (R_MkdirAll _ _ _ _ E1) (IH _ _ _ H)). }
  destruct (Ascii.eqb (tTypeflag h) TypeReg); [|apply IH].
  destruct (MkdirAll _ _ w) as [w1|] eqn:E1; [|intros [= _ <-]; apply R_refl].
  pose proof (R_MkdirAll _ _ _ _ E1) as G1.
  destruct (OpenFile _ _ w1) as [w2|] eqn:E2; [|intros [= _ <-]; exact G1].
  pose proof (R_trans _ _ _ G1 (R_OpenFile _ _ _ _ E2)) as G2.
  destruct (Write _ _ w2) as [w3|] eqn:E3; [|intros [= _ <-]; exact G2].
  pose proof (R_trans _ _ _ G2 (R_Write _ _ _ _ E3)) as G3.
  destruct (negb (tReads h)); [intros [= _ <-]; exact G3|].
  destruct (negb (Close _ w3)); [intros [= _ <-]; exact G3|].
  intros H. exact (R_trans _ _ _ G3 (IH _ _ _ H)).
Qed.


End Extraction.


(** The extraction of a list of entries goes through the extraction of
    each of its prefixes. *)
Lemma Apply_zip_prefix (a : ArchiveApplier) (source target : string)
  (pre rest : list zipFile) (w w1 w2 : world) (r : option ApplyError) :
  Apply a source target (ZipArchive pre) w = (None, w1) ->
  Apply a source target (ZipArchive (pre ++ rest)) w = (r, w2) ->
  extractZip_loop (extractRoot a target) rest w1 = (r, w2).
Proof.
  unfold Apply, extractZip, extractTarGz.
  destruct (HasSuffix source ".zip").
  - destruct (negb (Open source w)); [discriminate|].
    rewrite LoopFacts.extractZip_loop_app. intros ->. trivial.
  - destruct (HasSuffix source ".tar.gz" || HasSuffix source ".tgz");
      [|discriminate].
    destruct (negb (Open source w)); discriminate.
Qed.

Lemma Apply_tar_prefix (a : ArchiveApplier) (source target : string)
  (pre rest : list tarEntry) (eof : bool) (w w1 w2 : world)
  (r : option ApplyError) :
  Apply a source target (TarGzArchive pre true) w = (None, w1) ->
  Apply a source target (TarGzArchive (pre ++ rest) eof) w = (r, w2) ->
  extractTarGz_loop (extractRoot a target) rest eof w1 = (r, w2).
Proof.
  unfold Apply, extractZip, extractTarGz.
  destruct (HasSuffix source ".zip").
  - destruct (negb (Open source w)); discriminate.
  - destruct (HasSuffix source ".tar.gz" || HasSuffix source ".tgz");
      [|discriminate].
    destruct (negb (Open source w)); [discriminate|].
    rewrite LoopFacts.extractTarGz_loop_app. intros ->. trivial.
Qed.

End KeepFacts.



(** X22.  A failing extraction is not rolled back: when the entries before
    a point extract without an error, whatever happens to the archive
    after that point leaves every node of that state in place, a directory
    or a link as it was and a file still a file. *)
Theorem archive_apply_has_no_rollback
  (a : ArchiveApplier.ArchiveApplier) (source target : string)
  (w w1 w2 : OS.world) (r : option ArchiveApplier.ApplyError) :
  (forall pre rest,
     ArchiveApplier.Apply a source target (ArchiveApplier.ZipArchive pre) w
       = (None, w1) ->
     ArchiveApplier.Apply a source target
       (ArchiveApplier.ZipArchive (pre ++ rest)) w = (r, w2) ->
     Shape.keeps w1 w2) /\
  (forall pre rest eof,
     ArchiveApplier.Apply a source target
       (ArchiveApplier.TarGzArchive pre true) w = (None, w1) ->
     ArchiveApplier.Apply a source target
       (ArchiveApplier.TarGzArchive (pre ++ rest) eof) w = (r, w2) ->
     Shape.keeps w1 w2).
Proof.
  split.
  - intros pre rest H1 H2.
    pose proof (KeepFacts.Apply_zip_prefix _ _ _ _ _ _ _ _ _ H1 H2) as H.
    revert H. apply (KeepFacts.extractZip_loop_rel Shape.keeps
      KeepFacts.keeps_refl KeepFacts.keeps_trans KeepFacts.keeps_MkdirAll
      KeepFacts.keeps_OpenFile KeepFacts.keeps_Write).
  - intros pre rest eof H1 H2.
    pose proof (KeepFacts.Apply_tar_prefix _ _ _ _ _ _ _ _ _ _ H1 H2) as H.
    revert H. apply (KeepFacts.extractTarGz_loop_rel Shape.keeps
      KeepFacts.keeps_refl KeepFacts.keeps_trans KeepFacts.keeps_MkdirAll
      KeepFacts.keeps_OpenFile KeepFacts.keeps_Write).
Qed.

Lemma archive_apply_has_no_rollback_witness :
  let readme := ArchiveApplier.mkZipFile "docs/readme.txt" 420 "hello" true true in
  let evil := ArchiveApplier.mkZipFile "../../etc/passwd" 420 "root" true true in
  let run files := ArchiveApplier.Apply applier "/t/test.zip" "/t/extract/dummy"
                     (ArchiveApplier.ZipArchive files) extract_world in
  run [readme] = (None, snd (run [readme])) /\
  run ([readme] ++ [evil])%list
  = (Some (ArchiveApplier.IllegalFilePath "/etc/passwd"),
     snd (run ([readme] ++ [evil])%list)) /\
  Shape.keeps (snd (run [readme])) (snd (run ([readme] ++ [evil])%list)).
Proof.
  intros readme evil run.
  assert (H1 : run [readme] = (None, snd (run [readme])))
    by (vm_compute; reflexivity).
  assert (H2 : run ([readme] ++ [evil])%list
               = (Some (ArchiveApplier.IllegalFilePath "/etc/passwd"),
                  snd (run ([readme] ++ [evil])%list)))
    by (vm_compute; reflexivity).
  split; [exact H1|]. split; [exact H2|].
  destruct (archive_apply_has_no_rollback applier "/t/test.zip"
              "/t/extract/dummy" extract_world (snd (run [readme]))
              (snd (run ([readme] ++ [evil])%list))
              (Some (ArchiveApplier.IllegalFilePath "/etc/passwd")))
    as [Hzip _].
  exact (Hzip [readme] [evil] H1 H2).
Defined.

(** X23.  A tar stream that breaks off after its last entry: the entries
    are extracted as from the complete stream, and the error is that of
    reading the archive. *)
Theorem tar_truncated_stream_keeps_entries
  (a : ArchiveApplier.ArchiveApplier) (source target : string)
  (entries : list ArchiveApplier.tarEntry) (w w1 : OS.world) :
  ArchiveApplier.Apply a source target
    (ArchiveApplier.TarGzArchive entries true) w = (None, w1) ->
  ArchiveApplier.Apply a source target
    (ArchiveApplier.TarGzArchive entries false) w
  = (Some ArchiveApplier.ErrReadingTar, w1).
Proof.
  intros H1.
  destruct (ArchiveApplier.Apply a source target
              (ArchiveApplier.TarGzArchive entries false) w) as [r w2] eqn:H2.
  rewrite <- (app_nil_r entries) in H2.
  pose proof (KeepFacts.Apply_tar_prefix _ _ _ _ _ _ _ _ _ _ H1 H2) as H.
  simpl in H. congruence.
Qed.

Lemma tar_truncated_stream_keeps_entries_witness :
  let w1 := snd (ArchiveApplier.Apply applier "/t/test.tar.gz" "/t/extract/dummy"
                   (ArchiveApplier.TarGzArchive [tar_regular; tar_link] true)
                   extract_world) in
  ArchiveApplier.Apply applier "/t/test.tar.gz" "/t/extract/dummy"
    (ArchiveApplier.TarGzArchive [tar_regular; tar_link] false) extract_world
  = (Some ArchiveApplier.ErrReadingTar, w1) /\
  OS.fs w1 !! "/t/extract/regular.txt" = Some (OS.File 420 "content").
Proof.
  intros w1. split; [|vm_compute; reflexivity].
  apply tar_truncated_stream_keeps_entries. vm_compute. reflexivity.
Defined.

(** ** What [Parse] returns *)

(** X24.  The numbers of a version that [Parse] returns are never
    negative and fit a Go [int], although [strconv.Atoi] reads a sign: a
    minus or plus sign ends the numbers and starts the pre-release or the
    build metadata.  Neither of these two holds a plus sign. *)
Theorem parse_yields_unsigned_numbers (s : string) (v : Version.Version) :
  Version.Parse s = inl v ->
  0 <= Version.Major v <= Strconv.maxInt /\
  0 <= Version.Minor v <= Strconv.maxInt /\
  0 <= Version.Patch v <= Strconv.maxInt /\
  ContainsByte (Version.PreRelease v) "+" = false /\
  ContainsByte (Version.Build v) "+" = false.
Proof. intros H. exact (VersionFacts.Parse_shape s v H). Qed.

Lemma parse_yields_unsigned_numbers_witness :
  Version.Parse "v1.2.3-rc-1+b7+x" = inl (Version.mkVersion 1 2 3 "rc-1" "b7") /\
  0 <= 1 <= Strconv.maxInt.
Proof.
  assert (H : Version.Parse "v1.2.3-rc-1+b7+x"
              = inl (Version.mkVersion 1 2 3 "rc-1" "b7")) by reflexivity.
  split; [exact H|].
  destruct (parse_yields_unsigned_numbers _ _ H) as [E _]. exact E.
Defined.

(** ** More on the manifest: the order of its entries and its digests *)

Module EntryFacts.
Import Version Repository HTTPRepository.

Lemma latest_of_cons (first : httpRelease) (rest : list httpRelease)
  (v : Version.Version) :
  Parse (hVersion first) = inl v ->
  exists r vr,
    GetLatestRelease (Some (first :: rest)) = inl (convertHTTPRelease r) /\
    In r (first :: rest) /\ Parse (hVersion r) = inl vr /\
    forall h vh, In h (first :: rest) -> Parse (hVersion h) = inl vh ->
                 Compare vh vr <= 0.
Proof.
  intros Hv. unfold GetLatestRelease. cbn [latest_loop].
  destruct (ManifestFacts.latest_loop_some rest first) as [r Hr]. rewrite Hr.
  destruct (ManifestFacts.latest_loop_max rest first v r Hv Hr)
    as (vr & Hpr & Hle & Hrest).
  exists r, vr. split; [reflexivity|]. split.
  { apply ManifestFacts.latest_loop_member in Hr as [->|Hr];
      [left|right]; trivial. }
  split; [exact Hpr|]. intros h vh [<-|Hin] Hh; [|eauto].
  rewrite Hv in Hh. injection Hh as <-. exact Hle.
Qed.






End EntryFacts.

(** X25.  On a manifest whose entries are all versions, no two of them of
    the same precedence, [GetLatestRelease] does not depend on the order of
    the entries. *)
Theorem http_latest_release_ignores_order
  (releases releases' : list HTTPRepository.httpRelease) :
  releases <> [] ->
  (forall h, In h releases <-> In h releases') ->
  (forall h, In h releases ->
     exists v, Version.Parse (HTTPRepository.hVersion h) = inl v) ->
  (forall h h' v v',
     In h releases -> In h' releases ->
     Version.Parse (HTTPRepository.hVersion h) = inl v ->
     Version.Parse (HTTPRepository.hVersion h') = inl v' ->
     Version.Compare v v' = 0 -> h = h') ->
  HTTPRepository.GetLatestRelease (Some releases)
  = HTTPRepository.GetLatestRelease (Some releases').
Proof.
  intros Hne Hsame Hparse Hdistinct.
  destruct releases as [|first rest]; [contradiction Hne; reflexivity|].
  destruct releases' as [|first' rest'].
  { destruct (proj1 (Hsame first) (or_introl eq_refl)). }
  destruct (Hparse first (or_introl eq_refl)) as [v Hv].
  destruct (Hparse first' (proj2 (Hsame first') (or_introl eq_refl)))
    as [v' Hv'].
  destruct (EntryFacts.latest_of_cons first rest v Hv)
    as (r & vr & -> & Hin & Hr & Hmax).
  destruct (EntryFacts.latest_of_cons first' rest' v' Hv')
    as (r' & vr' & -> & Hin' & Hr' & Hmax').
  apply Hsame in Hin'.
  pose proof (Hmax r' vr' Hin' Hr') as L1.
  pose proof (Hmax' r vr (proj1 (Hsame r) Hin) Hr) as L2.
  rewrite CompareFacts.Compare_swap in L2.
  assert (E : Version.Compare vr' vr = 0) by lia.
  rewrite (Hdistinct r' r vr' vr Hin' Hin Hr' Hr E). reflexivity.
Qed.

Lemma http_latest_release_ignores_order_witness :
  HTTPRepository.GetLatestRelease
    (Some [manifest_entry "1.0.0"; manifest_entry "2.0.0"])
  = HTTPRepository.GetLatestRelease
      (Some [manifest_entry "2.0.0"; manifest_entry "1.0.0"]).
Proof.
  apply http_latest_release_ignores_order.
  - discriminate.
  - intros h. simpl. tauto.
  - intros h [<-|[<-|[]]]; eexists; reflexivity.
  - intros h h' v v' [<-|[<-|[]]] [<-|[<-|[]]] [= <-] [= <-];
      try reflexivity; vm_compute; discriminate.
Defined.



(** ** When the binary applier succeeds *)

Module ProgressFacts.
Import OS BinaryApplier.


End ProgressFacts.


